(** * Portfolio ledger and trade execution engine

    A shallow embedding of
      - [internal/portfolio/domain/portfolio.go]   (valuation and rule engine)
      - [internal/portfolio/service/portfolio_service.go] (orchestration)
    together with the properties the specification states about them.

    Numeric model.  The Go code computes money in [float64] and share
    counts in [int64].
      - [float64] is idealised as the exact rationals [Qc]: rounding,
        infinities and NaN are not represented, and division is [Qc]'s
        total division (x / 0 = 0).
      - [int64] is [Z] with the two's-complement wrap-around of Go's
        [+] and [-] written out ([int64_add], [int64_sub]).
      - [time.Time] is an abstract instant; every call of [time.Now()] in a
        function body reads the next value of a clock passed as argument. *)

From Stdlib Require Import QArith Qcanon ZArith Lia Lqa.
From stdpp Require Import gmap strings list fin_maps numbers sorting.

Local Open Scope Z_scope.
Local Open Scope Qc_scope.

(** ** Machine numbers *)

Definition Time := Z.

Definition int64_min : Z := (- 2 ^ 63)%Z.
Definition int64_max : Z := (2 ^ 63 - 1)%Z.

Definition in_int64 (z : Z) : Prop := (int64_min ≤ z ≤ int64_max)%Z.

Definition int64_wrap (z : Z) : Z := ((z + 2 ^ 63) mod 2 ^ 64 - 2 ^ 63)%Z.
Definition int64_add (a b : Z) : Z := int64_wrap (a + b).
Definition int64_sub (a b : Z) : Z := int64_wrap (a - b).

(** [float64(n)] for an [int64] n. *)
Definition float64_of_int64 (n : Z) : Qc := Qc_of_Z n.

(** Decimal literals of the source. *)
Definition lit_0_001 : Qc := Q2Qc (1 # 1000).
Definition lit_100 : Qc := Qc_of_Z 100.

(** ** Ledger types ([pkg/shared/models/portfolio.go]) *)

Module Position.
Record t := mk {
  ID : Z;
  PortfolioID : Z;
  UserID : Z;
  Symbol : string;
  Quantity : Z;
  Side : string;
  EntryPrice : Qc;
  CurrentPrice : Qc;
  UnrealizedPnL : Qc;
  RealizedPnL : Qc;
  CreatedAt : Time;
  UpdatedAt : Time
}.

Definition with_ID (v : Z) (p : t) : t :=
  mk v (PortfolioID p) (UserID p) (Symbol p) (Quantity p) (Side p)
     (EntryPrice p) (CurrentPrice p) (UnrealizedPnL p) (RealizedPnL p)
     (CreatedAt p) (UpdatedAt p).
Definition with_PortfolioID (v : Z) (p : t) : t :=
  mk (ID p) v (UserID p) (Symbol p) (Quantity p) (Side p)
     (EntryPrice p) (CurrentPrice p) (UnrealizedPnL p) (RealizedPnL p)
     (CreatedAt p) (UpdatedAt p).
Definition with_Quantity (v : Z) (p : t) : t :=
  mk (ID p) (PortfolioID p) (UserID p) (Symbol p) v (Side p)
     (EntryPrice p) (CurrentPrice p) (UnrealizedPnL p) (RealizedPnL p)
     (CreatedAt p) (UpdatedAt p).
Definition with_EntryPrice (v : Qc) (p : t) : t :=
  mk (ID p) (PortfolioID p) (UserID p) (Symbol p) (Quantity p) (Side p)
     v (CurrentPrice p) (UnrealizedPnL p) (RealizedPnL p)
     (CreatedAt p) (UpdatedAt p).
Definition with_CurrentPrice (v : Qc) (p : t) : t :=
  mk (ID p) (PortfolioID p) (UserID p) (Symbol p) (Quantity p) (Side p)
     (EntryPrice p) v (UnrealizedPnL p) (RealizedPnL p)
     (CreatedAt p) (UpdatedAt p).
Definition with_UnrealizedPnL (v : Qc) (p : t) : t :=
  mk (ID p) (PortfolioID p) (UserID p) (Symbol p) (Quantity p) (Side p)
     (EntryPrice p) (CurrentPrice p) v (RealizedPnL p)
     (CreatedAt p) (UpdatedAt p).
Definition with_CreatedAt (v : Time) (p : t) : t :=
  mk (ID p) (PortfolioID p) (UserID p) (Symbol p) (Quantity p) (Side p)
     (EntryPrice p) (CurrentPrice p) (UnrealizedPnL p) (RealizedPnL p)
     v (UpdatedAt p).
Definition with_UpdatedAt (v : Time) (p : t) : t :=
  mk (ID p) (PortfolioID p) (UserID p) (Symbol p) (Quantity p) (Side p)
     (EntryPrice p) (CurrentPrice p) (UnrealizedPnL p) (RealizedPnL p)
     (CreatedAt p) v.
End Position.

Module Trade.
Record t := mk {
  ID : Z;
  PortfolioID : Z;
  UserID : Z;
  PositionID : Z;
  Symbol : string;
  Quantity : Z;
  Price : Qc;
  Side : string;
  Type_ : string;
  Status : string;
  Fees : Qc;
  ExecutedAt : option Time;
  CreatedAt : Time
}.

Definition with_ID (v : Z) (x : t) : t :=
  mk v (PortfolioID x) (UserID x) (PositionID x) (Symbol x) (Quantity x)
     (Price x) (Side x) (Type_ x) (Status x) (Fees x) (ExecutedAt x)
     (CreatedAt x).
Definition with_PortfolioID (v : Z) (x : t) : t :=
  mk (ID x) v (UserID x) (PositionID x) (Symbol x) (Quantity x)
     (Price x) (Side x) (Type_ x) (Status x) (Fees x) (ExecutedAt x)
     (CreatedAt x).
Definition with_PositionID (v : Z) (x : t) : t :=
  mk (ID x) (PortfolioID x) (UserID x) v (Symbol x) (Quantity x)
     (Price x) (Side x) (Type_ x) (Status x) (Fees x) (ExecutedAt x)
     (CreatedAt x).
Definition with_CreatedAt (v : Time) (x : t) : t :=
  mk (ID x) (PortfolioID x) (UserID x) (PositionID x) (Symbol x)
     (Quantity x) (Price x) (Side x) (Type_ x) (Status x) (Fees x)
     (ExecutedAt x) v.

Definition with_Side (v : string) (x : t) : t :=
  mk (ID x) (PortfolioID x) (UserID x) (PositionID x) (Symbol x) (Quantity x)
     (Price x) v (Type_ x) (Status x) (Fees x) (ExecutedAt x) (CreatedAt x).

(** The four assignments that open [ExecuteTradeOrder]. *)
Definition stamp (price fees : Qc) (executedAt : Time) (x : t) : t :=
  mk (ID x) (PortfolioID x) (UserID x) (PositionID x) (Symbol x)
     (Quantity x) price (Side x) (Type_ x) "filled" fees
     (Some executedAt) (CreatedAt x).
End Trade.

Module Portfolio.
Record t := mk {
  ID : Z;
  UserID : Z;
  Cash : Qc;
  MarginUsed : Qc;
  MarginAvailable : Qc;
  TotalValue : Qc;
  UnrealizedPnL : Qc;
  RealizedPnL : Qc;
  DayPnL : Qc;
  Positions : list Position.t;
  CreatedAt : Time;
  UpdatedAt : Time
}.

Definition with_Cash (v : Qc) (p : t) : t :=
  mk (ID p) (UserID p) v (MarginUsed p) (MarginAvailable p) (TotalValue p)
     (UnrealizedPnL p) (RealizedPnL p) (DayPnL p) (Positions p)
     (CreatedAt p) (UpdatedAt p).
Definition with_Positions (v : list Position.t) (p : t) : t :=
  mk (ID p) (UserID p) (Cash p) (MarginUsed p) (MarginAvailable p)
     (TotalValue p) (UnrealizedPnL p) (RealizedPnL p) (DayPnL p) v
     (CreatedAt p) (UpdatedAt p).
Definition with_UpdatedAt (v : Time) (p : t) : t :=
  mk (ID p) (UserID p) (Cash p) (MarginUsed p) (MarginAvailable p)
     (TotalValue p) (UnrealizedPnL p) (RealizedPnL p) (DayPnL p)
     (Positions p) (CreatedAt p) v.
Definition with_TotalValue (v : Qc) (p : t) : t :=
  mk (ID p) (UserID p) (Cash p) (MarginUsed p) (MarginAvailable p) v
     (UnrealizedPnL p) (RealizedPnL p) (DayPnL p) (Positions p)
     (CreatedAt p) (UpdatedAt p).
Definition with_UnrealizedPnL (v : Qc) (p : t) : t :=
  mk (ID p) (UserID p) (Cash p) (MarginUsed p) (MarginAvailable p)
     (TotalValue p) v (RealizedPnL p) (DayPnL p) (Positions p)
     (CreatedAt p) (UpdatedAt p).
End Portfolio.

Module PositionSummary.
Record t := mk {
  Symbol : string;
  NetQuantity : Z;
  LongQuantity : Z;
  ShortQuantity : Z;
  AveragePrice : Qc;
  CurrentPrice : Qc;
  MarketValue : Qc;
  UnrealizedPnL : Qc;
  UnrealizedReturn : Qc
}.
End PositionSummary.

Module PortfolioSummary.
Record t := mk {
  TotalValue : Qc;
  Cash : Qc;
  PositionsValue : Qc;
  UnrealizedPnL : Qc;
  RealizedPnL : Qc;
  DayPnL : Qc;
  DayReturn : Qc;
  TotalReturn : Qc;
  PositionCount : nat
}.
End PortfolioSummary.

(** ** Valuation and rule engine ([internal/portfolio/domain/portfolio.go]) *)

Module domain.

(** The values built by [fmt.Errorf] in the domain layer, one constructor
    per message, carrying the formatted arguments.  [PanicIndex] is the
    run-time panic of an out-of-range slice index. *)
Inductive error :=
| ErrQuantityNotPositive
| ErrInvalidCurrentPrice (currentPrice : Qc)
| ErrInsufficientCash (need have : Qc)
| ErrInsufficientShares (need have : Z)
| ErrInvalidOrderSide (side : string)
| ErrPositionNotFound (symbol : string)
| PanicIndex.

Definition calculateCommission (tradeValue : Qc) : Qc :=
  let commission := tradeValue * lit_0_001 in
  if decide (commission < 1) then 1 else commission.

(** [findPosition] returns a pointer to the first position carrying the
    symbol, or nil; its callers only read through the pointer. *)
Fixpoint findPosition (positions : list Position.t) (symbol : string)
  : option Position.t :=
  match positions with
  | [] => None
  | p :: rest =>
      if decide (Position.Symbol p = symbol) then Some p
      else findPosition rest symbol
  end.

Fixpoint findPositionByIndex_from (i : Z) (positions : list Position.t)
  (symbol : string) : Z :=
  match positions with
  | [] => (-1)%Z
  | position :: rest =>
      if decide (Position.Symbol position = symbol) then i
      else findPositionByIndex_from (i + 1)%Z rest symbol
  end.

Definition findPositionByIndex (positions : list Position.t)
  (symbol : string) : Z :=
  findPositionByIndex_from 0 positions symbol.

(** [nil] is [None]. *)
Definition ValidateTradeOrder (trade : Trade.t) (portfolio : Portfolio.t)
  (currentPrice : Qc) : option error :=
  if decide (Trade.Quantity trade ≤ 0)%Z then Some ErrQuantityNotPositive
  else if decide (currentPrice ≤ 0) then
    Some (ErrInvalidCurrentPrice currentPrice)
  else if decide (Trade.Side trade = "buy") then
    let orderValue := float64_of_int64 (Trade.Quantity trade) * currentPrice in
    let fees := calculateCommission orderValue in
    let totalCost := orderValue + fees in
    if decide (Portfolio.Cash portfolio < totalCost) then
      Some (ErrInsufficientCash totalCost (Portfolio.Cash portfolio))
    else None
  else if decide (Trade.Side trade = "sell") then
    match findPosition (Portfolio.Positions portfolio) (Trade.Symbol trade) with
    | None => Some (ErrInsufficientShares (Trade.Quantity trade) 0)
    | Some position =>
        if decide (Position.Quantity position < Trade.Quantity trade)%Z then
          Some (ErrInsufficientShares (Trade.Quantity trade)
                  (Position.Quantity position))
        else None
    end
  else Some (ErrInvalidOrderSide (Trade.Side trade)).

(** What a call of [ExecuteTradeOrder] leaves behind: the trade and the
    portfolio as mutated through the two pointer arguments, and the two
    results.  [position] is the value of the returned pointee. *)
Record outcome := mkOutcome {
  trade' : Trade.t;
  portfolio' : Portfolio.t;
  position : option Position.t;
  err : option error
}.

(** [append(s[:i], s[i+1:]...)] *)
Definition remove_at (i : nat) (s : list Position.t) : list Position.t :=
  take i s ++ drop (S i) s.

Definition ExecuteTradeOrder (now : nat → Time) (trade : Trade.t)
  (portfolio : Portfolio.t) (currentPrice : Qc) : outcome :=
  let trade :=
    Trade.stamp currentPrice
      (calculateCommission
         (float64_of_int64 (Trade.Quantity trade) * currentPrice))
      (now 0%nat) trade in
  let tradeValue := float64_of_int64 (Trade.Quantity trade) * currentPrice in
  let position :=
    findPositionByIndex (Portfolio.Positions portfolio) (Trade.Symbol trade) in
  if decide (Trade.Side trade = "buy") then
    let portfolio :=
      Portfolio.with_Cash
        (Portfolio.Cash portfolio - (tradeValue + Trade.Fees trade))
        portfolio in
    if decide (position = (-1)%Z) then
      let newPosition :=
        Position.mk 0 0 (Trade.UserID trade) (Trade.Symbol trade)
          (Trade.Quantity trade) "long" currentPrice currentPrice 0 0
          (now 1%nat) (now 2%nat) in
      mkOutcome trade
        (Portfolio.with_Positions
           (Portfolio.Positions portfolio ++ [newPosition]) portfolio)
        (Some newPosition) None
    else
      match Portfolio.Positions portfolio !! Z.to_nat position with
      | None => mkOutcome trade portfolio None (Some PanicIndex)
      | Some pos =>
          let totalCost :=
            Position.EntryPrice pos
            * float64_of_int64 (Position.Quantity pos) + tradeValue in
          let totalQuantity :=
            int64_add (Position.Quantity pos) (Trade.Quantity trade) in
          let pos :=
            Position.with_EntryPrice
              (totalCost / float64_of_int64 totalQuantity) pos in
          let pos := Position.with_Quantity totalQuantity pos in
          let pos := Position.with_CurrentPrice currentPrice pos in
          let pos :=
            Position.with_UnrealizedPnL
              ((currentPrice - Position.EntryPrice pos)
               * float64_of_int64 totalQuantity) pos in
          let pos := Position.with_UpdatedAt (now 1%nat) pos in
          mkOutcome trade
            (Portfolio.with_Positions
               (<[Z.to_nat position := pos]> (Portfolio.Positions portfolio))
               portfolio)
            (Some pos) None
      end
  else
    if decide (position = (-1)%Z) then
      mkOutcome trade portfolio None
        (Some (ErrPositionNotFound (Trade.Symbol trade)))
    else
      let portfolio :=
        Portfolio.with_Cash
          (Portfolio.Cash portfolio + (tradeValue - Trade.Fees trade))
          portfolio in
      match Portfolio.Positions portfolio !! Z.to_nat position with
      | None => mkOutcome trade portfolio None (Some PanicIndex)
      | Some pos =>
          let pos :=
            Position.with_Quantity
              (int64_sub (Position.Quantity pos) (Trade.Quantity trade)) pos in
          let pos := Position.with_CurrentPrice currentPrice pos in
          if decide (Position.Quantity pos = 0%Z) then
            mkOutcome trade
              (Portfolio.with_Positions
                 (remove_at (Z.to_nat position)
                    (<[Z.to_nat position := pos]>
                       (Portfolio.Positions portfolio)))
                 portfolio)
              None None
          else
            let pos :=
              Position.with_UnrealizedPnL
                ((currentPrice - Position.EntryPrice pos)
                 * float64_of_int64 (Position.Quantity pos)) pos in
            let pos := Position.with_UpdatedAt (now 1%nat) pos in
            mkOutcome trade
              (Portfolio.with_Positions
                 (<[Z.to_nat position := pos]> (Portfolio.Positions portfolio))
                 portfolio)
              (Some pos) None
      end.

(** [for _, position := range positions] with an accumulator is a left
    fold over the slice. *)
Definition CalculatePortfolioValue (portfolio : Portfolio.t)
  (currentPrices : gmap string Qc) : Qc :=
  foldl
    (λ totalValue position,
       match currentPrices !! Position.Symbol position with
       | Some currentPrice =>
           totalValue
           + float64_of_int64 (Position.Quantity position) * currentPrice
       | None => totalValue
       end)
    (Portfolio.Cash portfolio) (Portfolio.Positions portfolio).

Definition CalculatePortfolioAllocation (portfolio : Portfolio.t)
  (currentPrices : gmap string Qc) : gmap string Qc :=
  let totalValue := CalculatePortfolioValue portfolio currentPrices in
  let allocations : gmap string Qc := ∅ in
  let allocations :=
    if decide (0 < totalValue) then
      <["CASH" := Portfolio.Cash portfolio / totalValue * lit_100]> allocations
    else allocations in
  foldl
    (λ allocations position,
       match currentPrices !! Position.Symbol position with
       | Some currentPrice =>
           let positionValue :=
             float64_of_int64 (Position.Quantity position) * currentPrice in
           if decide (0 < totalValue) then
             <[Position.Symbol position :=
                 positionValue / totalValue * lit_100]> allocations
           else allocations
       | None => allocations
       end)
    allocations (Portfolio.Positions portfolio).





Definition CalculateUnrealizedPnL (positions : list Position.t)
  (currentPrices : gmap string Qc) : Qc :=
  foldl
    (λ totalPnL position,
       match currentPrices !! Position.Symbol position with
       | Some currentPrice =>
           let unrealizedPnL :=
             (currentPrice - Position.EntryPrice position)
             * float64_of_int64 (Position.Quantity position) in
           totalPnL + unrealizedPnL
       | None => totalPnL
       end)
    0 positions.

Definition CalculatePositionSummary (position : Position.t)
  (currentPrice : Qc) : PositionSummary.t :=
  let marketValue :=
    float64_of_int64 (Position.Quantity position) * currentPrice in
  let unrealizedPnL :=
    (currentPrice - Position.EntryPrice position)
    * float64_of_int64 (Position.Quantity position) in
  let unrealizedReturn :=
    if decide (0 < Position.EntryPrice position) then
      unrealizedPnL
      / (Position.EntryPrice position
         * float64_of_int64 (Position.Quantity position))
      * lit_100
    else 0 in
  PositionSummary.mk (Position.Symbol position) (Position.Quantity position)
    (Position.Quantity position) 0 (Position.EntryPrice position)
    currentPrice marketValue unrealizedPnL unrealizedReturn.

Definition CalculatePortfolioSummary (portfolio : Portfolio.t)
  (currentPrices previousDayPrices : gmap string Qc) : PortfolioSummary.t :=
  let totalValue := CalculatePortfolioValue portfolio currentPrices in
  let positionsValue := totalValue - Portfolio.Cash portfolio in
  let unrealizedPnL :=
    CalculateUnrealizedPnL (Portfolio.Positions portfolio) currentPrices in
  let dayPnL :=
    foldl
      (λ dayPnL position,
         match currentPrices !! Position.Symbol position with
         | Some currentPrice =>
             match previousDayPrices !! Position.Symbol position with
             | Some previousPrice =>
                 let dayChange :=
                   (currentPrice - previousPrice)
                   * float64_of_int64 (Position.Quantity position) in
                 dayPnL + dayChange
             | None => dayPnL
             end
         | None => dayPnL
         end)
      0 (Portfolio.Positions portfolio) in
  let dayReturn :=
    if decide (0 < totalValue) then dayPnL / totalValue * lit_100 else 0 in
  let totalReturn :=
    if decide (0 < positionsValue) then
      unrealizedPnL / positionsValue * lit_100
    else 0 in
  PortfolioSummary.mk totalValue (Portfolio.Cash portfolio) positionsValue
    unrealizedPnL (Portfolio.RealizedPnL portfolio) dayPnL dayReturn
    totalReturn (length (Portfolio.Positions portfolio)).

(** The loop of [UpdatePortfolioWithMarketData] over the positions, from
    the [k]-th clock reading on: the positions as mutated in place, the two
    running totals and the number of readings used. *)
Fixpoint UpdatePortfolioWithMarketData_loop (now : nat → Time) (k : nat)
  (currentPrices : gmap string Qc) (positions : list Position.t)
  (totalUnrealizedPnL totalValue : Qc)
  : list Position.t * Qc * Qc * nat :=
  match positions with
  | [] => ([], totalUnrealizedPnL, totalValue, k)
  | position :: rest =>
      match currentPrices !! Position.Symbol position with
      | Some currentPrice =>
          let position := Position.with_CurrentPrice currentPrice position in
          let position :=
            Position.with_UnrealizedPnL
              ((currentPrice - Position.EntryPrice position)
               * float64_of_int64 (Position.Quantity position)) position in
          let position := Position.with_UpdatedAt (now k) position in
          let '(rest, totalUnrealizedPnL, totalValue, k) :=
            UpdatePortfolioWithMarketData_loop now (S k) currentPrices rest
              (totalUnrealizedPnL + Position.UnrealizedPnL position)
              (totalValue
               + float64_of_int64 (Position.Quantity position) * currentPrice)
          in
          (position :: rest, totalUnrealizedPnL, totalValue, k)
      | None =>
          let '(rest, totalUnrealizedPnL, totalValue, k) :=
            UpdatePortfolioWithMarketData_loop now k currentPrices rest
              totalUnrealizedPnL totalValue in
          (position :: rest, totalUnrealizedPnL, totalValue, k)
      end
  end.

(** The portfolio as mutated through the pointer argument. *)
Definition UpdatePortfolioWithMarketData (now : nat → Time)
  (portfolio : Portfolio.t) (currentPrices : gmap string Qc) : Portfolio.t :=
  let '(positions, totalUnrealizedPnL, totalValue, k) :=
    UpdatePortfolioWithMarketData_loop now 0 currentPrices
      (Portfolio.Positions portfolio) 0 (Portfolio.Cash portfolio) in
  Portfolio.with_UpdatedAt (now k)
    (Portfolio.with_TotalValue totalValue
       (Portfolio.with_UnrealizedPnL totalUnrealizedPnL
          (Portfolio.with_Positions positions portfolio))).

Definition abs (x : Qc) : Qc := if decide (x < 0) then - x else x.

Definition getRebalanceAction (diff : Qc) : string :=
  if decide (1 < diff) then "buy"
  else if decide (diff < - 1) then "sell"
  else "hold".

(** [int64(x)] for a [float64] x: the fraction is discarded.  For a value
    outside the [int64] range Go leaves the result to the implementation;
    the model keeps the truncated integer. *)
Definition int64_of_float64 (x : Qc) : Z :=
  Z.quot (Qnum (this x)) (Zpos (Qden (this x))).

(** One element of the slice built by [RebalanceRecommendations]: the
    [map[string]interface{}] always has the same eight keys. *)
Record Recommendation := mkRecommendation {
  symbol : string;
  current_percent : Qc;
  target_percent : Qc;
  difference : Qc;
  target_value : Qc;
  current_value : Qc;
  action : string;
  estimated_shares : Z
}.

(** The body of the loop for one entry of [targetAllocations]: the
    recommendation appended, if any. *)
Definition RebalanceRecommendations_step (totalValue : Qc)
  (currentAllocations currentPrices : gmap string Qc)
  (entry : string * Qc) : option Recommendation :=
  let symbol := entry.1 in
  let targetPercent := entry.2 in
  let currentPercent := default 0 (currentAllocations !! symbol) in
  let diff := targetPercent - currentPercent in
  if decide (1 < abs diff) then
    let targetValue := targetPercent / lit_100 * totalValue in
    let currentValue := currentPercent / lit_100 * totalValue in
    match currentPrices !! symbol with
    | Some currentPrice =>
        Some (mkRecommendation symbol currentPercent targetPercent diff
                targetValue currentValue (getRebalanceAction diff)
                (int64_of_float64
                   ((targetValue - currentValue) / currentPrice)))
    | None => None
    end
  else None.

(** Go ranges over [targetAllocations] in an unspecified order; the model
    takes the entries in the order in which the map enumerates them. *)
Definition RebalanceRecommendations (portfolio : Portfolio.t)
  (targetAllocations currentPrices : gmap string Qc) : list Recommendation :=
  let totalValue := CalculatePortfolioValue portfolio currentPrices in
  let currentAllocations :=
    CalculatePortfolioAllocation portfolio currentPrices in
  omap (RebalanceRecommendations_step totalValue currentAllocations
          currentPrices)
    (map_to_list targetAllocations).

End domain.

(** ** Results of fallible calls *)

(** A Go pair [(value, err)]: either the value or the error. *)
Inductive res (E A : Type) : Type :=
| Ok (a : A)
| Err (e : E).
Arguments Ok {E A} a.
Arguments Err {E A} e.

(** ** Persistence gateway
    ([internal/portfolio/repository/portfolio_repository.go]) *)

Module repository.

(** What a failed call reports: the row is missing, or the driver failed
    (connection lost, context cancelled, constraint violated, ...). *)
Inductive error :=
| NotFound
| DriverError.

(** The statements the gateway sends.  Whether the driver fails one of
    them is decided outside the program. *)
Inductive op :=
| OpSelectPortfolio
| OpSelectPositions
| OpSelectPosition
| OpInsertPosition
| OpUpdatePosition
| OpDeletePosition
| OpInsertTrade
| OpUpdatePortfolio
| OpBegin
| OpCommit.

(** The three tables, rows in storage order.  A portfolio row has no
    positions column: its [Positions] field is the empty list. *)
Record DB := mkDB {
  portfolios : list Portfolio.t;
  positions : list Position.t;
  trades : list Trade.t
}.

(** What the database decides during one request: which statements fail,
    and the ids the [RETURNING id] clauses hand back. *)
Record env := mkEnv {
  fails : op → bool;
  position_id : Z;
  trade_id : Z
}.

Definition with_positions (v : list Position.t) (db : DB) : DB :=
  mkDB (portfolios db) v (trades db).
Definition with_trades (v : list Trade.t) (db : DB) : DB :=
  mkDB (portfolios db) (positions db) v.
Definition with_portfolios (v : list Portfolio.t) (db : DB) : DB :=
  mkDB v (positions db) (trades db).

(** [ORDER BY created_at DESC]; rows created at the same instant keep their
    storage order. *)
Definition created_not_before (a b : Position.t) : Prop :=
  (Position.CreatedAt b ≤ Position.CreatedAt a)%Z.

Global Instance created_not_before_dec (a b : Position.t) :
  Decision (created_not_before a b) :=
  Z_le_dec (Position.CreatedAt b) (Position.CreatedAt a).

Definition order_by_created_at_desc (rows : list Position.t)
  : list Position.t :=
  merge_sort created_not_before rows.

Definition GetPositionsByPortfolioID (e : env) (db : DB) (portfolioID : Z)
  : res error (list Position.t) :=
  if fails e OpSelectPositions then Err DriverError
  else
    match head (filter (λ pf, Portfolio.ID pf = portfolioID) (portfolios db)) with
    | None => Ok []
    | Some pf =>
        Ok (order_by_created_at_desc
              (filter (λ p, Position.UserID p = Portfolio.UserID pf)
                 (positions db)))
    end.

Definition GetPortfolioByID (e : env) (db : DB) (portfolioID : Z)
  : res error Portfolio.t :=
  if fails e OpSelectPortfolio then Err DriverError
  else
    match head (filter (λ pf, Portfolio.ID pf = portfolioID) (portfolios db)) with
    | None => Err NotFound
    | Some portfolio =>
        match GetPositionsByPortfolioID e db portfolioID with
        | Err cause => Err cause
        | Ok positions => Ok (Portfolio.with_Positions positions portfolio)
        end
    end.

(** A missing row is not an error here: the result is [nil, nil]. *)
Definition GetPositionByUserAndSymbol (e : env) (db : DB) (userID : Z)
  (symbol : string) : res error (option Position.t) :=
  if fails e OpSelectPosition then Err DriverError
  else
    Ok (head (filter (λ p, Position.UserID p = userID
                           ∧ Position.Symbol p = symbol) (positions db))).

(** Each write returns the tables after the statement and the struct as
    mutated through the pointer argument.  A failed statement changes
    nothing. *)
Definition CreatePosition (e : env) (now : Time) (db : DB)
  (position : Position.t) : res error (DB * Position.t) :=
  if fails e OpInsertPosition then Err DriverError
  else
    let position :=
      Position.with_UpdatedAt now
        (Position.with_CreatedAt now
           (Position.with_ID (position_id e) position)) in
    Ok (with_positions (positions db ++ [position]) db, position).

Definition UpdatePosition (e : env) (now : Time) (db : DB)
  (position : Position.t) : res error (DB * Position.t) :=
  if fails e OpUpdatePosition then Err DriverError
  else if decide (Exists (λ row, Position.ID row = Position.ID position)
                    (positions db)) then
    Ok (with_positions
          (map (λ row,
                  if decide (Position.ID row = Position.ID position) then
                    Position.mk (Position.ID row) (Position.PortfolioID row)
                      (Position.UserID row) (Position.Symbol row)
                      (Position.Quantity position) (Position.Side position)
                      (Position.EntryPrice position)
                      (Position.CurrentPrice position)
                      (Position.UnrealizedPnL position)
                      (Position.RealizedPnL position)
                      (Position.CreatedAt row) now
                  else row)
             (positions db)) db,
        Position.with_UpdatedAt now position)
  else Err NotFound.

Definition DeletePosition (e : env) (db : DB) (positionID : Z)
  : res error (DB * unit) :=
  if fails e OpDeletePosition then Err DriverError
  else if decide (Exists (λ row, Position.ID row = positionID)
                    (positions db)) then
    Ok (with_positions
          (filter (λ row, Position.ID row ≠ positionID) (positions db)) db,
        tt)
  else Err NotFound.

Definition CreateTrade (e : env) (now : Time) (db : DB) (trade : Trade.t)
  : res error (DB * Trade.t) :=
  if fails e OpInsertTrade then Err DriverError
  else
    let trade := Trade.with_CreatedAt now (Trade.with_ID (trade_id e) trade) in
    Ok (with_trades (trades db ++ [trade]) db, trade).

Definition UpdatePortfolio (e : env) (now : Time) (db : DB)
  (portfolio : Portfolio.t) : res error (DB * Portfolio.t) :=
  if fails e OpUpdatePortfolio then Err DriverError
  else if decide (Exists (λ row, Portfolio.ID row = Portfolio.ID portfolio)
                    (portfolios db)) then
    Ok (with_portfolios
          (map (λ row,
                  if decide (Portfolio.ID row = Portfolio.ID portfolio) then
                    Portfolio.mk (Portfolio.ID row) (Portfolio.UserID row)
                      (Portfolio.Cash portfolio)
                      (Portfolio.MarginUsed portfolio)
                      (Portfolio.MarginAvailable portfolio)
                      (Portfolio.TotalValue portfolio)
                      (Portfolio.UnrealizedPnL portfolio)
                      (Portfolio.RealizedPnL portfolio)
                      (Portfolio.DayPnL portfolio)
                      (Portfolio.Positions row)
                      (Portfolio.CreatedAt row) now
                  else row)
             (portfolios db)) db,
        Portfolio.with_UpdatedAt now portfolio)
  else Err NotFound.

(** Modelled from the spec: the transactional mode of the gateway
    ([BeginTx], [CreatePositionTx], [UpdatePositionTx], [DeletePositionTx],
    [CreateTradeTx], [UpdatePortfolioTx], and the [Commit] and [Rollback]
    of the handle), which the transactional [ExecuteTrade] calls and whose
    source is not in the tree.  The specification describes it as "a
    caller-scoped unit of work in which create/update/delete calls
    participate in one all-or-nothing commit".  The unit of work is a
    private copy of the tables taken by [BeginTx]; each call runs the
    statement of its standalone counterpart against that copy; [Commit]
    installs the copy or fails and installs nothing; [Rollback] drops it. *)
Definition BeginTx (e : env) (db : DB) : res error DB :=
  if fails e OpBegin then Err DriverError else Ok db.
Definition CreatePositionTx := CreatePosition.
Definition UpdatePositionTx := UpdatePosition.
Definition DeletePositionTx := DeletePosition.
Definition CreateTradeTx := CreateTrade.
Definition UpdatePortfolioTx := UpdatePortfolio.
Definition Commit (e : env) (tx : DB) : res error DB :=
  if fails e OpCommit then Err DriverError else Ok tx.

End repository.

(** ** Orchestration service
    ([internal/portfolio/service/portfolio_service.go]) *)

(** One request in flight: the committed tables, the tables as the open
    transaction sees them, and the struct behind the [*models.Trade]
    argument, which the callee mutates and the caller keeps on every
    return. *)
Module request.

(** The errors [ExecuteTrade] returns, one constructor per [fmt.Errorf]
    wrapper. *)
Inductive error :=
| FailedToGetPortfolio (cause : repository.error)
| TradeValidationFailed (cause : domain.error)
| FailedToExecuteTrade (cause : domain.error)
| FailedToBeginTransaction (cause : repository.error)
| FailedToCheckExistingPosition (cause : repository.error)
| FailedToCreatePosition (cause : repository.error)
| FailedToUpdatePosition (cause : repository.error)
| FailedToDeletePosition (cause : repository.error)
| FailedToCreateTradeRecord (cause : repository.error)
| FailedToUpdatePortfolio (cause : repository.error)
| FailedToCommitTransaction (cause : repository.error).

Record state := mkState {
  db : repository.DB;
  tx : repository.DB;
  trade : Trade.t
}.

Definition M (A : Type) : Type := state → state * res error A.

Global Instance M_ret : MRet M := λ A a s, (s, Ok a).

(** An error ends the call; the state reached so far stays. *)
Global Instance M_bind : MBind M := λ A B f c s,
  match c s with
  | (s', Ok a) => f a s'
  | (s', Err e) => (s', Err e)
  end.

Definition fail {A : Type} (e : error) : M A := λ s, (s, Err e).

Definition check (wrap : domain.error → error) (o : option domain.error)
  : M unit :=
  match o with
  | None => mret tt
  | Some cause => fail (wrap cause)
  end.

Definition get_trade : M Trade.t := λ s, (s, Ok (trade s)).

Definition set_trade (t : Trade.t) : M unit :=
  λ s, (mkState (db s) (tx s) t, Ok tt).

(** A read through [s.repo]: it sees the committed tables. *)
Definition query {A : Type} (wrap : repository.error → error)
  (q : repository.DB → res repository.error A) : M A :=
  λ s,
    match q (db s) with
    | Ok a => (s, Ok a)
    | Err cause => (s, Err (wrap cause))
    end.

(** A standalone write: it commits on its own. *)
Definition exec {A : Type} (wrap : repository.error → error)
  (w : repository.DB → res repository.error (repository.DB * A)) : M A :=
  λ s,
    match w (db s) with
    | Ok (db', a) => (mkState db' (tx s) (trade s), Ok a)
    | Err cause => (s, Err (wrap cause))
    end.

(** A write inside the open transaction. *)
Definition exec_tx {A : Type} (wrap : repository.error → error)
  (w : repository.DB → res repository.error (repository.DB * A)) : M A :=
  λ s,
    match w (tx s) with
    | Ok (tx', a) => (mkState (db s) tx' (trade s), Ok a)
    | Err cause => (s, Err (wrap cause))
    end.

Definition begin_tx (e : repository.env) : M unit :=
  λ s,
    match repository.BeginTx e (db s) with
    | Ok tx0 => (mkState (db s) tx0 (trade s), Ok tt)
    | Err cause => (s, Err (FailedToBeginTransaction cause))
    end.

Definition commit (e : repository.env) : M unit :=
  λ s,
    match repository.Commit e (tx s) with
    | Ok db' => (mkState db' (tx s) (trade s), Ok tt)
    | Err cause => (s, Err (FailedToCommitTransaction cause))
    end.

(** What the caller and the database hold when the call has returned.
    The deferred [tx.Rollback()] drops the transaction's view: only the
    committed tables remain. *)
Record outcome := mkOutcome {
  db' : repository.DB;
  trade' : Trade.t;
  position : option Position.t;
  err : option error
}.

Definition run (c : M (option Position.t)) (db0 : repository.DB)
  (trade0 : Trade.t) : outcome :=
  match c (mkState db0 db0 trade0) with
  | (s, Ok p) => mkOutcome (db s) (trade s) p None
  | (s, Err e) => mkOutcome (db s) (trade s) None (Some e)
  end.

End request.

(** [ExecuteTrade] of lines 105-188: every statement commits on its own.
    The clock readings 0-2 are those of [ExecuteTradeOrder]; 3, 4 and 5 are
    read by the trade insert, the position write and the portfolio update. *)
Module service.
Import request.

Definition ExecuteTrade (e : repository.env) (clock : nat → Time)
  (portfolioID : Z) (currentPrice : Qc) : M (option Position.t) :=
  portfolio ← query FailedToGetPortfolio
                (λ db, repository.GetPortfolioByID e db portfolioID);
  trade ← get_trade;
  _ ← check TradeValidationFailed
        (domain.ValidateTradeOrder trade portfolio currentPrice);
  let out := domain.ExecuteTradeOrder clock trade portfolio currentPrice in
  _ ← set_trade (domain.trade' out);
  _ ← check FailedToExecuteTrade (domain.err out);
  let portfolio := domain.portfolio' out in
  trade ← get_trade;
  trade ← exec FailedToCreateTradeRecord
            (λ db, repository.CreateTrade e (clock 3%nat) db trade);
  _ ← set_trade trade;
  position ←
    match domain.position out with
    | Some position =>
        existingPosition ←
          query FailedToCheckExistingPosition
            (λ db, repository.GetPositionByUserAndSymbol e db
                     (Trade.UserID trade) (Trade.Symbol trade));
        match existingPosition with
        | None =>
            position ← exec FailedToCreatePosition
                         (λ db, repository.CreatePosition e (clock 4%nat)
                                  db position);
            mret (Some position)
        | Some existingPosition =>
            let position :=
              Position.with_ID (Position.ID existingPosition) position in
            position ← exec FailedToUpdatePosition
                         (λ db, repository.UpdatePosition e (clock 4%nat)
                                  db position);
            mret (Some position)
        end
    | None =>
        existingPosition ←
          query FailedToCheckExistingPosition
            (λ db, repository.GetPositionByUserAndSymbol e db
                     (Trade.UserID trade) (Trade.Symbol trade));
        match existingPosition with
        | Some existingPosition =>
            _ ← exec FailedToDeletePosition
                  (λ db, repository.DeletePosition e db
                           (Position.ID existingPosition));
            mret None
        | None => mret None
        end
    end;
  _ ← exec FailedToUpdatePortfolio
        (λ db, repository.UpdatePortfolio e (clock 5%nat) db portfolio);
  mret position.


(** [UpdatePortfolioWithMarketData], the same in both bodies of the file.
    [updatedAt] is the instant the portfolio update reads. *)
Definition UpdatePortfolioWithMarketData (e : repository.env)
  (clock : nat → Time) (updatedAt : Time) (portfolioID : Z)
  (currentPrices : gmap string Qc) : M unit :=
  portfolio ← query FailedToGetPortfolio
                (λ db, repository.GetPortfolioByID e db portfolioID);
  let portfolio :=
    domain.UpdatePortfolioWithMarketData clock portfolio currentPrices in
  _ ← exec FailedToUpdatePortfolio
        (λ db, repository.UpdatePortfolio e updatedAt db portfolio);
  mret tt.

End service.

(** [ExecuteTrade] of lines 385-497: the writes go through one transaction.
    [position.PortfolioID = portfolioID] writes through a pointer that may
    alias an element of [portfolio.Positions]; the portfolio update stores
    no positions, so the alias is not observable and the position is a value
    here. *)
Module service_tx.
Import request.

Definition ExecuteTrade (e : repository.env) (clock : nat → Time)
  (portfolioID : Z) (currentPrice : Qc) : M (option Position.t) :=
  portfolio ← query FailedToGetPortfolio
                (λ db, repository.GetPortfolioByID e db portfolioID);
  trade ← get_trade;
  _ ← check TradeValidationFailed
        (domain.ValidateTradeOrder trade portfolio currentPrice);
  let out := domain.ExecuteTradeOrder clock trade portfolio currentPrice in
  _ ← set_trade (domain.trade' out);
  _ ← check FailedToExecuteTrade (domain.err out);
  let portfolio := domain.portfolio' out in
  trade ← get_trade;
  _ ← set_trade (Trade.with_PortfolioID portfolioID trade);
  _ ← begin_tx e;
  finalPosition ←
    match domain.position out with
    | Some position =>
        let position := Position.with_PortfolioID portfolioID position in
        trade ← get_trade;
        existingPosition ←
          query FailedToCheckExistingPosition
            (λ db, repository.GetPositionByUserAndSymbol e db
                     (Trade.UserID trade) (Trade.Symbol trade));
        finalPosition ←
          match existingPosition with
          | None =>
              exec_tx FailedToCreatePosition
                (λ tx, repository.CreatePositionTx e (clock 3%nat) tx position)
          | Some existingPosition =>
              let position :=
                Position.with_ID (Position.ID existingPosition) position in
              exec_tx FailedToUpdatePosition
                (λ tx, repository.UpdatePositionTx e (clock 3%nat) tx position)
          end;
        _ ← set_trade
              (Trade.with_PositionID (Position.ID finalPosition) trade);
        mret (Some finalPosition)
    | None =>
        trade ← get_trade;
        existingPosition ←
          query FailedToCheckExistingPosition
            (λ db, repository.GetPositionByUserAndSymbol e db
                     (Trade.UserID trade) (Trade.Symbol trade));
        match existingPosition with
        | Some existingPosition =>
            _ ← set_trade
                  (Trade.with_PositionID (Position.ID existingPosition) trade);
            _ ← exec_tx FailedToDeletePosition
                  (λ tx, repository.DeletePositionTx e tx
                           (Position.ID existingPosition));
            mret None
        | None => mret None
        end
    end;
  trade ← get_trade;
  trade ← exec_tx FailedToCreateTradeRecord
            (λ tx, repository.CreateTradeTx e (clock 4%nat) tx trade);
  _ ← set_trade trade;
  _ ← exec_tx FailedToUpdatePortfolio
        (λ tx, repository.UpdatePortfolioTx e (clock 5%nat) tx portfolio);
  _ ← commit e;
  mret finalPosition.

End service_tx.

(** ** Reading the specification *)

(** The larger of two amounts. *)
Definition Qcmax (a b : Qc) : Qc := if decide (a ≤ b) then b else a.

(** Sum of the percentages held in an allocation map. *)
Definition allocation_sum (allocations : gmap string Qc) : Qc :=
  map_fold (λ _ percent acc, percent + acc) 0 allocations.

(** Market value of a position as the specification defines it: a position
    whose symbol has no price contributes zero. *)
Definition position_value (currentPrices : gmap string Qc)
  (position : Position.t) : Qc :=
  match currentPrices !! Position.Symbol position with
  | Some currentPrice =>
      float64_of_int64 (Position.Quantity position) * currentPrice
  | None => 0
  end.


Fixpoint Qcsum (l : list Qc) : Qc :=
  match l with
  | [] => 0
  | x :: rest => x + Qcsum rest
  end.


(** Every quantity stored in the portfolio is an [int64]. *)
Definition quantities_int64 (portfolio : Portfolio.t) : Prop :=
  Forall (λ position, in_int64 (Position.Quantity position))
    (Portfolio.Positions portfolio).





(** A sum [x] lies within [tol] of [target]. *)
Definition within (tol x target : Qc) : Prop :=
  x - target ≤ tol ∧ target - x ≤ tol.

Definition lit_0_01 : Qc := Q2Qc (1 # 100).

(** A step that leaves the committed tables alone, whatever it returns. *)
Definition keeps_db {A : Type} (c : request.M A) : Prop :=
  ∀ s s' r, c s = (s', r) → request.db s' = request.db s.

(** A step that leaves the committed tables alone whenever it fails. *)
Definition all_or_nothing {A : Type} (c : request.M A) : Prop :=
  ∀ s s' e, c s = (s', Err e) → request.db s' = request.db s.

(** ** The three ways an order changes a position *)

(** The position a buy creates when the portfolio holds none for the
    symbol. *)
Definition opened_position (now : nat → Time) (trade : Trade.t)
  (currentPrice : Qc) : Position.t :=
  Position.mk 0 0 (Trade.UserID trade) (Trade.Symbol trade)
    (Trade.Quantity trade) "long" currentPrice currentPrice 0 0
    (now 1%nat) (now 2%nat).

(** An existing position after a buy: weighted-average entry price. *)
Definition topped_up_position (now : nat → Time) (trade : Trade.t)
  (currentPrice : Qc) (old : Position.t) : Position.t :=
  let totalQuantity :=
    int64_add (Position.Quantity old) (Trade.Quantity trade) in
  let entryPrice :=
    (Position.EntryPrice old * float64_of_int64 (Position.Quantity old)
     + float64_of_int64 (Trade.Quantity trade) * currentPrice)
    / float64_of_int64 totalQuantity in
  Position.mk (Position.ID old) (Position.PortfolioID old)
    (Position.UserID old) (Position.Symbol old) totalQuantity
    (Position.Side old) entryPrice currentPrice
    ((currentPrice - entryPrice) * float64_of_int64 totalQuantity)
    (Position.RealizedPnL old) (Position.CreatedAt old) (now 1%nat).

(** An existing position after a sell that leaves shares. *)
Definition reduced_position (now : nat → Time) (trade : Trade.t)
  (currentPrice : Qc) (old : Position.t) : Position.t :=
  let quantity := int64_sub (Position.Quantity old) (Trade.Quantity trade) in
  Position.mk (Position.ID old) (Position.PortfolioID old)
    (Position.UserID old) (Position.Symbol old) quantity
    (Position.Side old) (Position.EntryPrice old) currentPrice
    ((currentPrice - Position.EntryPrice old) * float64_of_int64 quantity)
    (Position.RealizedPnL old) (Position.CreatedAt old) (now 1%nat).

(** The trade as stamped by [ExecuteTradeOrder]. *)
Definition filled (now : nat → Time) (trade : Trade.t) (currentPrice : Qc)
  : Trade.t :=
  Trade.stamp currentPrice
    (domain.calculateCommission
       (float64_of_int64 (Trade.Quantity trade) * currentPrice))
    (now 0%nat) trade.

(** Trade value and fee of an order at a price. *)
Definition trade_value (trade : Trade.t) (currentPrice : Qc) : Qc :=
  float64_of_int64 (Trade.Quantity trade) * currentPrice.
Definition trade_fee (trade : Trade.t) (currentPrice : Qc) : Qc :=
  domain.calculateCommission (trade_value trade currentPrice).

(** What the shares of the priced positions cost at their entry prices. *)
Definition cost_basis (positions : list Position.t) : Qc :=
  Qcsum (map (λ p, Position.EntryPrice p
                   * float64_of_int64 (Position.Quantity p)) positions).

(** Unrealized profit of a position at the current prices: zero when its
    symbol has no price. *)
Definition position_pnl (currentPrices : gmap string Qc)
  (position : Position.t) : Qc :=
  match currentPrices !! Position.Symbol position with
  | Some currentPrice =>
      (currentPrice - Position.EntryPrice position)
      * float64_of_int64 (Position.Quantity position)
  | None => 0
  end.

(** A position before and after it is marked to market: a priced position
    takes the price and the profit at that price, an unpriced one is left
    as it is; identity, owner, symbol, quantity, entry price, realized
    profit and creation instant never change. *)
Definition marked_to_market (currentPrices : gmap string Qc)
  (before after : Position.t) : Prop :=
  Position.ID after = Position.ID before
  ∧ Position.PortfolioID after = Position.PortfolioID before
  ∧ Position.UserID after = Position.UserID before
  ∧ Position.Symbol after = Position.Symbol before
  ∧ Position.Quantity after = Position.Quantity before
  ∧ Position.Side after = Position.Side before
  ∧ Position.EntryPrice after = Position.EntryPrice before
  ∧ Position.RealizedPnL after = Position.RealizedPnL before
  ∧ Position.CreatedAt after = Position.CreatedAt before
  ∧ match currentPrices !! Position.Symbol before with
    | Some currentPrice =>
        Position.CurrentPrice after = currentPrice
        ∧ Position.UnrealizedPnL after
          = (currentPrice - Position.EntryPrice before)
            * float64_of_int64 (Position.Quantity before)
    | None => after = before
    end.

(** ** Concrete ledgers *)

Definition tick : nat → Time := λ k, Z.of_nat k.

Definition AAPL_position (quantity : Z) (entryPrice : Qc) : Position.t :=
  Position.mk 1 1 1 "AAPL" quantity "long" entryPrice entryPrice 0 0 0%Z 0%Z.

Definition MSFT_position (quantity : Z) (entryPrice : Qc) : Position.t :=
  Position.mk 2 1 1 "MSFT" quantity "long" entryPrice entryPrice 0 0 0%Z 0%Z.

Definition order (side symbol : string) (quantity : Z) : Trade.t :=
  Trade.mk 0 0 1 0 symbol quantity 0 side "market" "pending" 0 None 0%Z.

Definition ledger (cash : Qc) (positions : list Position.t) : Portfolio.t :=
  Portfolio.mk 1 1 cash 0 0 cash 0 0 0 positions 0%Z 0%Z.

(** Scenarios A, B and C of the specification. *)
Definition scenario_A : Portfolio.t := ledger (Qc_of_Z 100000) [].
Definition scenario_B : Portfolio.t :=
  ledger (Q2Qc (196997 # 2)) [AAPL_position 10 (Qc_of_Z 150)].
Definition scenario_C : Portfolio.t :=
  ledger (Q2Qc (968969 # 10)) [AAPL_position 20 (Qc_of_Z 155)].

(** The portfolio of [scripts/test-portfolio-domain.go] and its prices. *)
Definition test_portfolio : Portfolio.t :=
  ledger (Qc_of_Z 10000)
    [AAPL_position 50 (Qc_of_Z 150); MSFT_position 30 (Qc_of_Z 300)].
Definition test_prices : gmap string Qc :=
  <["AAPL" := Qc_of_Z 155]> (<["MSFT" := Qc_of_Z 310]> ∅).

(** A portfolio without cash that holds one share. *)
Definition one_share : Portfolio.t := ledger 0 [AAPL_position 1 1].
Definition half : Qc := Q2Qc (1 # 2).

(** A portfolio that has never been funded. *)
Definition unfunded : Portfolio.t := ledger 0 [].

(** A database holding the portfolio of scenario A, and a request during
    which the insert into [positions] fails. *)
Definition scenario_A_db : repository.DB :=
  repository.mkDB [scenario_A] [] [].
Definition position_insert_fails : repository.env :=
  repository.mkEnv
    (λ o, match o with repository.OpInsertPosition => true | _ => false end)
    1 1.

(** A request during which no statement fails. *)
Definition no_faults : repository.env :=
  repository.mkEnv (λ _, false) 1 1.


(** The price map in which AAPL trades at 160. *)
Definition AAPL_at_160 : gmap string Qc := <["AAPL" := Qc_of_Z 160]> ∅.

(** * Properties *)

(** ** Arithmetic helpers *)

Ltac qc_arith :=
  unfold Qcle, Qclt, Qcmax, lit_0_001, lit_100 in *; simpl in *;
  rewrite ?Qred_correct in *; lra.

Ltac qc_contra :=
  match goal with
  | H1 : ?a ≤ ?b, H2 : ?b < ?a |- _ => exact (Qclt_not_le _ _ H2 H1)
  | H1 : ¬ ?a < ?b, H2 : ?a < ?b |- _ => exact (H1 H2)
  | H1 : ¬ ?a ≤ ?b, H2 : ?a ≤ ?b |- _ => exact (H1 H2)
  end.

Lemma Qcle_sub_nonneg (x y : Qc) : y ≤ x → 0 ≤ x - y.
Proof. intros H. qc_arith. Qed.

Lemma int64_wrap_id (z : Z) : in_int64 z → int64_wrap z = z.
Proof.
  unfold in_int64, int64_min, int64_max, int64_wrap. intros H.
  rewrite Z.mod_small; lia.
Qed.

Lemma int64_add_exact (a b : Z) : in_int64 (a + b) → int64_add a b = (a + b)%Z.
Proof. apply int64_wrap_id. Qed.

Lemma int64_sub_exact (a b : Z) : in_int64 (a - b) → int64_sub a b = (a - b)%Z.
Proof. apply int64_wrap_id. Qed.

Lemma calculateCommission_max (v : Qc) :
  domain.calculateCommission v = Qcmax 1 (lit_0_001 * v).
Proof.
  unfold domain.calculateCommission, Qcmax.
  rewrite (Qcmult_comm v lit_0_001).
  destruct (decide (lit_0_001 * v < 1)) as [Hlt|Hge];
    destruct (decide (1 ≤ lit_0_001 * v)) as [Hle|Hnle]; try reflexivity.
  - apply Qcle_antisym; [done | by apply Qclt_le_weak].
  - exfalso. apply Hnle. by apply Qcnot_lt_le.
Qed.

Lemma calculateCommission_ge_1 (v : Qc) : 1 ≤ domain.calculateCommission v.
Proof.
  unfold domain.calculateCommission.
  destruct (decide (v * lit_0_001 < 1)); [apply Qcle_refl | by apply Qcnot_lt_le].
Qed.

Lemma calculateCommission_le_value (v : Qc) :
  1 ≤ v → domain.calculateCommission v ≤ v.
Proof.
  unfold domain.calculateCommission. intros Hv.
  destruct (decide (v * lit_0_001 < 1)); [done|].
  clear n. qc_arith.
Qed.

(** ** The two position searches agree *)

Lemma findPosition_None (positions : list Position.t) (symbol : string) :
  domain.findPosition positions symbol = None ↔
  Forall (λ p, Position.Symbol p ≠ symbol) positions.
Proof.
  induction positions as [|p rest IH]; simpl.
  - split; [constructor | done].
  - destruct (decide (Position.Symbol p = symbol)) as [Heq|Hne].
    + split; [done|]. intros H. inversion H; subst. congruence.
    + rewrite IH. split.
      * intros H. by constructor.
      * intros H. by inversion H.
Qed.

Lemma findPositionByIndex_from_spec (positions : list Position.t)
  (symbol : string) (i : Z) :
  match domain.findPosition positions symbol with
  | None => domain.findPositionByIndex_from i positions symbol = (-1)%Z
  | Some p =>
      ∃ k : nat,
        domain.findPositionByIndex_from i positions symbol = (i + Z.of_nat k)%Z
        ∧ positions !! k = Some p
        ∧ Position.Symbol p = symbol
        ∧ Forall (λ p', Position.Symbol p' ≠ symbol) (take k positions)
  end.
Proof.
  revert i. induction positions as [|p rest IH]; intros i; simpl; [done|].
  destruct (decide (Position.Symbol p = symbol)) as [Heq|Hne].
  - exists 0%nat. repeat split; [lia | done | constructor].
  - specialize (IH (i + 1)%Z).
    destruct (domain.findPosition rest symbol) as [q|]; [|done].
    destruct IH as (k & Hk & Hl & Hs & Hf).
    exists (S k). repeat split; [lia | done | done |].
    simpl. by constructor.
Qed.

Lemma findPositionByIndex_spec (positions : list Position.t) (symbol : string) :
  match domain.findPosition positions symbol with
  | None => domain.findPositionByIndex positions symbol = (-1)%Z
  | Some p =>
      ∃ k : nat,
        domain.findPositionByIndex positions symbol = Z.of_nat k
        ∧ positions !! k = Some p
        ∧ Position.Symbol p = symbol
        ∧ Forall (λ p', Position.Symbol p' ≠ symbol) (take k positions)
  end.
Proof.
  unfold domain.findPositionByIndex.
  pose proof (findPositionByIndex_from_spec positions symbol 0) as H.
  destruct (domain.findPosition positions symbol); [|done].
  destruct H as (k & Hk & H). exists k. split; [lia | done].
Qed.

Lemma remove_at_insert (i : nat) (x : Position.t) (l : list Position.t) :
  domain.remove_at i (<[i := x]> l) = delete i l.
Proof.
  unfold domain.remove_at.
  rewrite take_insert_ge by lia. rewrite drop_insert_lt by lia.
  symmetry. apply delete_take_drop.
Qed.

(** ** Trade stamping and the fee *)

Lemma ExecuteTradeOrder_trade (now : nat → Time) (trade : Trade.t)
  (portfolio : Portfolio.t) (currentPrice : Qc) :
  domain.trade' (domain.ExecuteTradeOrder now trade portfolio currentPrice)
  = Trade.stamp currentPrice
      (domain.calculateCommission
         (float64_of_int64 (Trade.Quantity trade) * currentPrice))
      (now 0%nat) trade.
Proof.
  unfold domain.ExecuteTradeOrder. simpl.
  repeat (case_decide || case_match); reflexivity.
Qed.

(** C10.  Whatever the trade, the portfolio and the execution price,
    [ExecuteTradeOrder] leaves the trade with [Price] equal to the execution
    price, [Fees] equal to the commission on quantity × price, [Status] equal
    to "filled" and [ExecutedAt] set to the instant read first; every other
    trade field keeps its value.  The stamping precedes the branch on the
    side, so it is also in place when a sell finds no position for the symbol
    and the call returns the position-not-found error. *)
Theorem ExecuteTradeOrder_stamps_trade (now : nat → Time) (trade : Trade.t)
  (portfolio : Portfolio.t) (currentPrice : Qc) :
  let out := domain.ExecuteTradeOrder now trade portfolio currentPrice in
  (Trade.Price (domain.trade' out) = currentPrice
   ∧ Trade.Fees (domain.trade' out)
     = domain.calculateCommission
         (float64_of_int64 (Trade.Quantity trade) * currentPrice)
   ∧ Trade.Status (domain.trade' out) = "filled"
   ∧ Trade.ExecutedAt (domain.trade' out) = Some (now 0%nat))
  ∧ (Trade.ID (domain.trade' out) = Trade.ID trade
     ∧ Trade.PortfolioID (domain.trade' out) = Trade.PortfolioID trade
     ∧ Trade.UserID (domain.trade' out) = Trade.UserID trade
     ∧ Trade.PositionID (domain.trade' out) = Trade.PositionID trade
     ∧ Trade.Symbol (domain.trade' out) = Trade.Symbol trade
     ∧ Trade.Quantity (domain.trade' out) = Trade.Quantity trade
     ∧ Trade.Side (domain.trade' out) = Trade.Side trade
     ∧ Trade.Type_ (domain.trade' out) = Trade.Type_ trade
     ∧ Trade.CreatedAt (domain.trade' out) = Trade.CreatedAt trade)
  ∧ (Trade.Side trade = "sell" →
     domain.findPosition (Portfolio.Positions portfolio) (Trade.Symbol trade)
     = None →
     domain.err out = Some (domain.ErrPositionNotFound (Trade.Symbol trade))
     ∧ Trade.Status (domain.trade' out) = "filled"
     ∧ Trade.Price (domain.trade' out) = currentPrice
     ∧ Trade.ExecutedAt (domain.trade' out) = Some (now 0%nat)).
Proof.
  intros out. subst out. rewrite ExecuteTradeOrder_trade. simpl.
  split; [done|]. split; [done|].
  intros Hside Hnone.
  split; [|done].
  unfold domain.ExecuteTradeOrder. simpl.
  pose proof (findPositionByIndex_spec (Portfolio.Positions portfolio)
                (Trade.Symbol trade)) as Hidx.
  rewrite Hnone in Hidx. rewrite Hidx, Hside. simpl. reflexivity.
Qed.

(** C9.  A sell for a symbol the portfolio holds no position in makes
    [ExecuteTradeOrder] return the position-not-found error and no position,
    and the portfolio after the call is the portfolio before it: the cash and
    the list of positions are untouched. *)
Theorem ExecuteTradeOrder_sell_without_position (now : nat → Time)
  (trade : Trade.t) (portfolio : Portfolio.t) (currentPrice : Qc) :
  Trade.Side trade = "sell" →
  Forall (λ p, Position.Symbol p ≠ Trade.Symbol trade)
    (Portfolio.Positions portfolio) →
  let out := domain.ExecuteTradeOrder now trade portfolio currentPrice in
  domain.err out = Some (domain.ErrPositionNotFound (Trade.Symbol trade))
  ∧ domain.position out = None
  ∧ domain.portfolio' out = portfolio
  ∧ Portfolio.Cash (domain.portfolio' out) = Portfolio.Cash portfolio
  ∧ Portfolio.Positions (domain.portfolio' out) = Portfolio.Positions portfolio.
Proof.
  intros Hside Hnone out. subst out.
  apply findPosition_None in Hnone.
  pose proof (findPositionByIndex_spec (Portfolio.Positions portfolio)
                (Trade.Symbol trade)) as Hidx.
  rewrite Hnone in Hidx.
  unfold domain.ExecuteTradeOrder. simpl. rewrite Hidx, Hside. simpl.
  done.
Qed.

(** C6.  The commission on a trade value v is max(1, 0.001 × v); the fee
    stamped on any executed order, whatever its side, is that commission at
    v = quantity × execution price, and it is the fee validation adds to the
    cost of a buy. *)
Theorem commission_is_max_of_minimum_and_rate (v : Qc) :
  domain.calculateCommission v = Qcmax 1 (lit_0_001 * v)
  ∧ 1 ≤ domain.calculateCommission v
  ∧ lit_0_001 * v ≤ domain.calculateCommission v
  ∧ (domain.calculateCommission v = 1
     ∨ domain.calculateCommission v = lit_0_001 * v)
  ∧ ∀ (now : nat → Time) (trade : Trade.t) (portfolio : Portfolio.t)
      (currentPrice : Qc),
      v = float64_of_int64 (Trade.Quantity trade) * currentPrice →
      Trade.Fees
        (domain.trade'
           (domain.ExecuteTradeOrder now trade portfolio currentPrice))
      = Qcmax 1 (lit_0_001 * v).
Proof.
  split; [apply calculateCommission_max|].
  split; [apply calculateCommission_ge_1|].
  split.
  { unfold domain.calculateCommission. rewrite (Qcmult_comm v).
    destruct (decide (lit_0_001 * v < 1)); [by apply Qclt_le_weak | apply Qcle_refl]. }
  split.
  { unfold domain.calculateCommission. rewrite (Qcmult_comm v).
    destruct (decide (lit_0_001 * v < 1)); [by left | by right]. }
  intros now trade portfolio currentPrice ->.
  rewrite ExecuteTradeOrder_trade. simpl. apply calculateCommission_max.
Qed.

(** ** Order validation *)



(** ** Executing a validated order *)

Lemma ValidateTradeOrder_ok_buy (trade : Trade.t) (portfolio : Portfolio.t)
  (currentPrice : Qc) :
  Trade.Side trade = "buy" →
  domain.ValidateTradeOrder trade portfolio currentPrice = None →
  (0 < Trade.Quantity trade)%Z ∧ 0 < currentPrice
  ∧ float64_of_int64 (Trade.Quantity trade) * currentPrice
    + domain.calculateCommission
        (float64_of_int64 (Trade.Quantity trade) * currentPrice)
    ≤ Portfolio.Cash portfolio.
Proof.
  intros Hside. unfold domain.ValidateTradeOrder. rewrite Hside.
  repeat case_decide; try done. intros _.
  split; [lia|]. split; by apply Qcnot_le_lt || apply Qcnot_lt_le.
Qed.

Lemma ValidateTradeOrder_ok_sell (trade : Trade.t) (portfolio : Portfolio.t)
  (currentPrice : Qc) :
  Trade.Side trade = "sell" →
  domain.ValidateTradeOrder trade portfolio currentPrice = None →
  (0 < Trade.Quantity trade)%Z ∧ 0 < currentPrice
  ∧ ∃ old,
      domain.findPosition (Portfolio.Positions portfolio) (Trade.Symbol trade)
      = Some old
      ∧ (Trade.Quantity trade ≤ Position.Quantity old)%Z.
Proof.
  intros Hside. unfold domain.ValidateTradeOrder. rewrite Hside.
  repeat case_decide; try done.
  destruct (domain.findPosition _ _) as [old|]; [|done].
  case_decide; [done|]. intros _.
  split; [lia|]. split; [by apply Qcnot_le_lt|].
  exists old. split; [done | lia].
Qed.

(** C3.  A buy that passed validation returns no error and debits the cash by
    exactly quantity × price + fee.  When the portfolio already holds a
    position for the symbol (the first one carrying it), that position is
    updated in place: its quantity becomes the [int64] sum of the old
    quantity and the bought quantity (the plain sum whenever it fits in 64
    bits), and its entry price becomes
    (oldEntryPrice × oldQty + quantity × price) / (oldQty + quantity).
    When no position carries the symbol, a new position is appended whose
    entry price is the execution price and whose quantity is the bought
    quantity. *)
Theorem buy_debits_cash_and_averages_entry_price (now : nat → Time)
  (trade : Trade.t) (portfolio : Portfolio.t) (currentPrice : Qc) :
  Trade.Side trade = "buy" →
  domain.ValidateTradeOrder trade portfolio currentPrice = None →
  let out := domain.ExecuteTradeOrder now trade portfolio currentPrice in
  let q := Trade.Quantity trade in
  let tradeValue := float64_of_int64 q * currentPrice in
  let fee := domain.calculateCommission tradeValue in
  domain.err out = None
  ∧ Portfolio.Cash (domain.portfolio' out)
    = Portfolio.Cash portfolio - tradeValue - fee
  ∧ match domain.findPosition (Portfolio.Positions portfolio)
            (Trade.Symbol trade) with
    | Some old =>
        ∃ (k : nat) (pos : Position.t),
          Portfolio.Positions portfolio !! k = Some old
          ∧ domain.position out = Some pos
          ∧ Portfolio.Positions (domain.portfolio' out)
            = <[k := pos]> (Portfolio.Positions portfolio)
          ∧ Position.Symbol pos = Trade.Symbol trade
          ∧ Position.Quantity pos = int64_add (Position.Quantity old) q
          ∧ Position.EntryPrice pos
            = (Position.EntryPrice old
               * float64_of_int64 (Position.Quantity old) + tradeValue)
              / float64_of_int64 (int64_add (Position.Quantity old) q)
          ∧ (in_int64 (Position.Quantity old + q) →
             Position.Quantity pos = (Position.Quantity old + q)%Z
             ∧ Position.EntryPrice pos
               = (Position.EntryPrice old
                  * float64_of_int64 (Position.Quantity old) + tradeValue)
                 / float64_of_int64 (Position.Quantity old + q))
    | None =>
        ∃ pos : Position.t,
          domain.position out = Some pos
          ∧ Portfolio.Positions (domain.portfolio' out)
            = Portfolio.Positions portfolio ++ [pos]
          ∧ Position.Symbol pos = Trade.Symbol trade
          ∧ Position.Quantity pos = q
          ∧ Position.EntryPrice pos = currentPrice
    end.
Proof.
  intros Hside Hvalid out q tradeValue fee. subst out q tradeValue fee.
  pose proof (findPositionByIndex_spec (Portfolio.Positions portfolio)
                (Trade.Symbol trade)) as Hidx.
  unfold domain.ExecuteTradeOrder. simpl. rewrite Hside. simpl.
  destruct (domain.findPosition (Portfolio.Positions portfolio)
              (Trade.Symbol trade)) as [old|] eqn:Hfind.
  - destruct Hidx as (k & Hk & Hlook & Hsym & _).
    rewrite Hk. destruct (decide (Z.of_nat k = (-1)%Z)) as [?|_]; [lia|].
    rewrite Nat2Z.id, Hlook. simpl.
    split; [done|]. split; [ring|].
    exists k. eexists. split; [done|]. split; [reflexivity|].
    split; [reflexivity|]. split; [exact Hsym|]. split; [reflexivity|].
    split; [reflexivity|].
    intros Hfit. simpl. by rewrite int64_add_exact.
  - rewrite Hidx. simpl.
    split; [done|]. split; [ring|].
    eexists. repeat split; done.
Qed.

(** C4.  A sell that passed validation finds the first position carrying
    the symbol, returns no error and credits the cash by
    quantity × price − fee.  When the position holds exactly the sold
    quantity it is deleted from the list of positions and no position is
    returned; otherwise the position stays in place with its quantity
    reduced by exactly the sold quantity and its entry price unchanged. *)
Theorem sell_credits_cash_and_reduces_position (now : nat → Time)
  (trade : Trade.t) (portfolio : Portfolio.t) (currentPrice : Qc) :
  quantities_int64 portfolio →
  Trade.Side trade = "sell" →
  domain.ValidateTradeOrder trade portfolio currentPrice = None →
  let out := domain.ExecuteTradeOrder now trade portfolio currentPrice in
  let q := Trade.Quantity trade in
  let tradeValue := float64_of_int64 q * currentPrice in
  let fee := domain.calculateCommission tradeValue in
  ∃ (k : nat) (old : Position.t),
    Portfolio.Positions portfolio !! k = Some old
    ∧ domain.findPosition (Portfolio.Positions portfolio) (Trade.Symbol trade)
      = Some old
    ∧ Position.Symbol old = Trade.Symbol trade
    ∧ domain.err out = None
    ∧ Portfolio.Cash (domain.portfolio' out)
      = Portfolio.Cash portfolio + tradeValue - fee
    ∧ ((Position.Quantity old - q = 0)%Z →
       domain.position out = None
       ∧ Portfolio.Positions (domain.portfolio' out)
         = delete k (Portfolio.Positions portfolio))
    ∧ ((Position.Quantity old - q ≠ 0)%Z →
       ∃ pos : Position.t,
         domain.position out = Some pos
         ∧ Portfolio.Positions (domain.portfolio' out)
           = <[k := pos]> (Portfolio.Positions portfolio)
         ∧ Position.Symbol pos = Position.Symbol old
         ∧ Position.Quantity pos = (Position.Quantity old - q)%Z
         ∧ Position.EntryPrice pos = Position.EntryPrice old).
Proof.
  intros Hint Hside Hvalid out q tradeValue fee. subst out q tradeValue fee.
  destruct (ValidateTradeOrder_ok_sell _ _ _ Hside Hvalid)
    as (Hq & _ & old & Hfind & Hle).
  pose proof (findPositionByIndex_spec (Portfolio.Positions portfolio)
                (Trade.Symbol trade)) as Hidx.
  rewrite Hfind in Hidx. destruct Hidx as (k & Hk & Hlook & Hsym & _).
  assert (in_int64 (Position.Quantity old)) as Hold.
  { unfold quantities_int64 in Hint. rewrite Forall_lookup in Hint.
    by apply (Hint k). }
  assert (int64_sub (Position.Quantity old) (Trade.Quantity trade)
          = (Position.Quantity old - Trade.Quantity trade)%Z) as Hsub.
  { apply int64_sub_exact. unfold in_int64, int64_min, int64_max in *. lia. }
  exists k, old. split; [done|]. split; [done|]. split; [done|].
  unfold domain.ExecuteTradeOrder. simpl.
  assert (Trade.Side trade ≠ "buy") as Hnb by (rewrite Hside; done).
  destruct (decide (Trade.Side trade = "buy")) as [?|_]; [done|].
  rewrite Hk. destruct (decide (Z.of_nat k = (-1)%Z)) as [?|_]; [lia|].
  rewrite Nat2Z.id. simpl. rewrite Hlook. simpl. rewrite Hsub.
  destruct (decide ((Position.Quantity old - Trade.Quantity trade)%Z = 0%Z))
    as [Hz|Hnz]; simpl.
  - split; [done|]. split; [ring|]. split; [|done].
    intros _. split; [done|]. apply remove_at_insert.
  - split; [done|]. split; [ring|]. split; [done|].
    intros _. eexists. repeat split; done.
Qed.

(** ** Cash after a validated order *)

Lemma ExecuteTradeOrder_buy_cash (now : nat → Time) (trade : Trade.t)
  (portfolio : Portfolio.t) (currentPrice : Qc) :
  Trade.Side trade = "buy" →
  Portfolio.Cash
    (domain.portfolio' (domain.ExecuteTradeOrder now trade portfolio currentPrice))
  = Portfolio.Cash portfolio
    - (float64_of_int64 (Trade.Quantity trade) * currentPrice
       + domain.calculateCommission
           (float64_of_int64 (Trade.Quantity trade) * currentPrice)).
Proof.
  intros Hside. unfold domain.ExecuteTradeOrder. simpl. rewrite Hside. simpl.
  repeat (case_decide || case_match); reflexivity.
Qed.

Lemma ExecuteTradeOrder_sell_cash (now : nat → Time) (trade : Trade.t)
  (portfolio : Portfolio.t) (currentPrice : Qc) (old : Position.t) :
  Trade.Side trade = "sell" →
  domain.findPosition (Portfolio.Positions portfolio) (Trade.Symbol trade)
  = Some old →
  Portfolio.Cash
    (domain.portfolio' (domain.ExecuteTradeOrder now trade portfolio currentPrice))
  = Portfolio.Cash portfolio
    + (float64_of_int64 (Trade.Quantity trade) * currentPrice
       - domain.calculateCommission
           (float64_of_int64 (Trade.Quantity trade) * currentPrice)).
Proof.
  intros Hside Hfind.
  pose proof (findPositionByIndex_spec (Portfolio.Positions portfolio)
                (Trade.Symbol trade)) as Hidx.
  rewrite Hfind in Hidx. destruct Hidx as (k & Hk & _).
  unfold domain.ExecuteTradeOrder. simpl. rewrite Hside, Hk. simpl.
  destruct (decide (Z.of_nat k = (-1)%Z)) as [?|_]; [lia|].
  repeat (case_decide || case_match); reflexivity.
Qed.

(** C1, as the code has it.  On a portfolio with non-negative cash, an order
    accepted by [ValidateTradeOrder] and executed on the same snapshot at the
    same price leaves non-negative cash when it is a buy.  When it is a sell
    the cash becomes cash + quantity × price − fee; that is non-negative
    whenever the fee does not exceed quantity × price, in particular whenever
    quantity × price ≥ 1. *)
Theorem validated_execution_cash (now : nat → Time) (trade : Trade.t)
  (portfolio : Portfolio.t) (currentPrice : Qc) :
  0 ≤ Portfolio.Cash portfolio →
  domain.ValidateTradeOrder trade portfolio currentPrice = None →
  let out := domain.ExecuteTradeOrder now trade portfolio currentPrice in
  let tradeValue := float64_of_int64 (Trade.Quantity trade) * currentPrice in
  let fee := domain.calculateCommission tradeValue in
  (Trade.Side trade = "buy" ∨ Trade.Side trade = "sell")
  ∧ (Trade.Side trade = "buy" →
     0 ≤ Portfolio.Cash (domain.portfolio' out))
  ∧ (Trade.Side trade = "sell" →
     Portfolio.Cash (domain.portfolio' out)
     = Portfolio.Cash portfolio + tradeValue - fee
     ∧ (fee ≤ tradeValue → 0 ≤ Portfolio.Cash (domain.portfolio' out))
     ∧ (1 ≤ tradeValue → 0 ≤ Portfolio.Cash (domain.portfolio' out))).
Proof.
  intros Hcash Hvalid out tradeValue fee. subst out tradeValue fee.
  split.
  { revert Hvalid. unfold domain.ValidateTradeOrder.
    repeat case_decide; try done; auto. }
  split.
  - intros Hside.
    destruct (ValidateTradeOrder_ok_buy _ _ _ Hside Hvalid) as (_ & _ & Hle).
    rewrite ExecuteTradeOrder_buy_cash by done.
    by apply Qcle_sub_nonneg.
  - intros Hside.
    destruct (ValidateTradeOrder_ok_sell _ _ _ Hside Hvalid)
      as (_ & _ & old & Hfind & _).
    rewrite (ExecuteTradeOrder_sell_cash _ _ _ _ old) by done.
    set (tv := float64_of_int64 (Trade.Quantity trade) * currentPrice).
    assert (∀ fee : Qc, fee ≤ tv →
              0 ≤ Portfolio.Cash portfolio + (tv - fee)) as Hnonneg.
    { intros fee Hfee. clear -Hcash Hfee. qc_arith. }
    split; [ring|]. split; [apply Hnonneg|].
    intros Hone. apply Hnonneg. by apply calculateCommission_le_value.
Qed.

(** ** Valuation, allocation and diversification *)

Lemma Qcsum_scale (c : Qc) (l : list Qc) :
  Qcsum (map (λ x, x * c) l) = Qcsum l * c.
Proof. induction l as [|x l IH]; simpl; [ring | rewrite IH; ring]. Qed.

Lemma CalculatePortfolioValue_fold (currentPrices : gmap string Qc)
  (positions : list Position.t) (acc : Qc) :
  foldl
    (λ totalValue position,
       match currentPrices !! Position.Symbol position with
       | Some currentPrice =>
           totalValue
           + float64_of_int64 (Position.Quantity position) * currentPrice
       | None => totalValue
       end)
    acc positions
  = acc + Qcsum (map (position_value currentPrices) positions).
Proof.
  revert acc. induction positions as [|p l IH]; intros acc; simpl; [ring|].
  rewrite IH. unfold position_value at 2.
  destruct (currentPrices !! Position.Symbol p); ring.
Qed.

Lemma CalculatePortfolioValue_sum (portfolio : Portfolio.t)
  (currentPrices : gmap string Qc) :
  domain.CalculatePortfolioValue portfolio currentPrices
  = Portfolio.Cash portfolio
    + Qcsum (map (position_value currentPrices) (Portfolio.Positions portfolio)).
Proof. apply CalculatePortfolioValue_fold. Qed.



Lemma allocation_sum_insert (allocations : gmap string Qc) (symbol : string)
  (percent : Qc) :
  allocations !! symbol = None →
  allocation_sum (<[symbol := percent]> allocations)
  = percent + allocation_sum allocations.
Proof.
  intros Hfresh. unfold allocation_sum.
  apply (map_fold_insert_L (λ (_ : string) (p acc : Qc), p + acc)); [|done].
  intros. ring.
Qed.

Lemma allocation_fold_sum (currentPrices : gmap string Qc) (totalValue : Qc)
  (positions : list Position.t) (allocations : gmap string Qc) :
  0 < totalValue →
  NoDup (map Position.Symbol positions) →
  Forall (λ p, allocations !! Position.Symbol p = None) positions →
  allocation_sum
    (foldl
       (λ allocations position,
          match currentPrices !! Position.Symbol position with
          | Some currentPrice =>
              let positionValue :=
                float64_of_int64 (Position.Quantity position) * currentPrice in
              if decide (0 < totalValue) then
                <[Position.Symbol position :=
                    positionValue / totalValue * lit_100]> allocations
              else allocations
          | None => allocations
          end)
       allocations positions)
  = allocation_sum allocations
    + Qcsum (map (λ p, position_value currentPrices p / totalValue * lit_100)
               positions).
Proof.
  intros Hpos. revert allocations.
  induction positions as [|p l IH]; intros allocations Hnodup Hfresh; simpl;
    [ring|].
  inversion Hnodup as [|? ? Hnotin Hnodup']; subst.
  inversion Hfresh as [|? ? Hp Hl]; subst.
  unfold position_value at 1.
  destruct (currentPrices !! Position.Symbol p) as [cp|] eqn:Hprice.
  - destruct (decide (0 < totalValue)) as [_|?]; [|done].
    rewrite IH; [|done|].
    + rewrite allocation_sum_insert by done. ring.
    + rewrite list.Forall_forall in Hl |- *. intros p' Hin.
      rewrite lookup_insert_ne; [by apply Hl|].
      intros Heq. apply Hnotin. rewrite Heq.
      apply list_elem_of_fmap. by exists p'.
  - rewrite IH by done. unfold Qcdiv. ring.
Qed.

Lemma within_refl (x : Qc) : within lit_0_01 x x.
Proof.
  unfold within. assert (x - x = 0) as -> by ring.
  split; by vm_compute.
Qed.

(** C7, as the code has it.  When every position's symbol has a price, the
    total portfolio value is positive, the positions carry pairwise distinct
    symbols and none of them is "CASH", the percentages returned by
    [CalculatePortfolioAllocation], the "CASH" entry included, sum to 100. *)
Theorem allocation_percentages_sum_to_100 (portfolio : Portfolio.t)
  (currentPrices : gmap string Qc) :
  Forall (λ p, is_Some (currentPrices !! Position.Symbol p))
    (Portfolio.Positions portfolio) →
  0 < domain.CalculatePortfolioValue portfolio currentPrices →
  NoDup (map Position.Symbol (Portfolio.Positions portfolio)) →
  "CASH" ∉ map Position.Symbol (Portfolio.Positions portfolio) →
  allocation_sum (domain.CalculatePortfolioAllocation portfolio currentPrices)
  = lit_100
  ∧ within lit_0_01
      (allocation_sum
         (domain.CalculatePortfolioAllocation portfolio currentPrices))
      lit_100.
Proof.
  intros _ Hpos Hnodup Hcash.
  assert (allocation_sum
            (domain.CalculatePortfolioAllocation portfolio currentPrices)
          = lit_100) as Hsum.
  { unfold domain.CalculatePortfolioAllocation.
    set (T := domain.CalculatePortfolioValue portfolio currentPrices) in *.
    rewrite allocation_fold_sum; [|done|done|].
    - destruct (decide (0 < T)) as [_|?]; [|done].
      rewrite allocation_sum_insert by apply lookup_empty.
      unfold allocation_sum at 1. rewrite map_fold_empty.
      assert (Qcsum
                (map (λ p, position_value currentPrices p / T * lit_100)
                   (Portfolio.Positions portfolio))
              = Qcsum (map (position_value currentPrices)
                         (Portfolio.Positions portfolio)) / T * lit_100) as ->.
      { transitivity
          (Qcsum (map (position_value currentPrices)
                    (Portfolio.Positions portfolio)) * (/ T * lit_100));
          [|unfold Qcdiv; ring].
        rewrite <- Qcsum_scale, map_map.
        f_equal. apply map_ext. intros p. unfold Qcdiv. ring. }
      assert (T ≠ 0) as Hne.
      { intros Hz. rewrite Hz in Hpos. by apply (Qclt_not_eq 0 0). }
      pose proof (CalculatePortfolioValue_sum portfolio currentPrices) as HT.
      fold T in HT.
      transitivity
        ((Portfolio.Cash portfolio
          + Qcsum (map (position_value currentPrices)
                     (Portfolio.Positions portfolio))) / T * lit_100);
        [unfold Qcdiv; ring|].
      rewrite <- HT. field. done.
    - destruct (decide (0 < T)) as [_|?]; [|done].
      rewrite Forall_lookup. intros i p Hin.
      rewrite lookup_insert_ne; [apply lookup_empty|].
      intros Heq. apply Hcash. rewrite Heq.
      apply list_elem_of_fmap. exists p.
      split; [done | by eapply list_elem_of_lookup_2]. }
  split; [done|]. rewrite Hsum. apply within_refl.
Qed.

(** ** The transactional unit of work *)

Create HintDb ledger.

Lemma keeps_db_ret {A : Type} (a : A) : keeps_db (mret a : request.M A).
Proof. intros s s' r [= <- _]. done. Qed.

Lemma keeps_db_fail {A : Type} (e : request.error) :
  keeps_db (request.fail e : request.M A).
Proof. intros s s' r [= <- _]. done. Qed.

Lemma keeps_db_check (wrap : domain.error → request.error)
  (o : option domain.error) : keeps_db (request.check wrap o).
Proof. destruct o; [apply keeps_db_fail | apply keeps_db_ret]. Qed.

Lemma keeps_db_get_trade : keeps_db request.get_trade.
Proof. intros s s' r [= <- _]. done. Qed.

Lemma keeps_db_set_trade (t : Trade.t) : keeps_db (request.set_trade t).
Proof. intros s s' r [= <- _]. done. Qed.

Lemma keeps_db_query {A : Type} (wrap : repository.error → request.error)
  (q : repository.DB → res repository.error A) :
  keeps_db (request.query wrap q).
Proof.
  intros s s' r. unfold request.query.
  destruct (q (request.db s)); intros [= <- _]; done.
Qed.

Lemma keeps_db_exec_tx {A : Type} (wrap : repository.error → request.error)
  (w : repository.DB → res repository.error (repository.DB * A)) :
  keeps_db (request.exec_tx wrap w).
Proof.
  intros s s' r. unfold request.exec_tx.
  destruct (w (request.tx s)) as [[tx' a]|cause]; intros [= <- _]; done.
Qed.

Lemma keeps_db_begin_tx (e : repository.env) : keeps_db (request.begin_tx e).
Proof.
  intros s s' r. unfold request.begin_tx.
  destruct (repository.BeginTx e (request.db s)); intros [= <- _]; done.
Qed.

Lemma keeps_db_bind {A B : Type} (c : request.M A) (k : A → request.M B) :
  keeps_db c → (∀ a, keeps_db (k a)) → keeps_db (c ≫= k).
Proof.
  intros Hc Hk s s' r. unfold mbind, request.M_bind.
  destruct (c s) as [s1 [a|e]] eqn:Hcs.
  - intros Hks. rewrite (Hk a s1 s' r Hks). by eapply Hc.
  - intros [= <- _]. by eapply Hc.
Qed.

Lemma all_or_nothing_keeps {A : Type} (c : request.M A) :
  keeps_db c → all_or_nothing c.
Proof. intros Hc s s' e Hcs. by eapply Hc. Qed.

Lemma all_or_nothing_bind {A B : Type} (c : request.M A)
  (k : A → request.M B) :
  keeps_db c → (∀ a, all_or_nothing (k a)) → all_or_nothing (c ≫= k).
Proof.
  intros Hc Hk s s' e. unfold mbind, request.M_bind.
  destruct (c s) as [s1 [a|e1]] eqn:Hcs.
  - intros Hks. rewrite (Hk a s1 s' e Hks). by eapply Hc.
  - intros [= <- _]. by eapply Hc.
Qed.

(** The commit is the only step that touches the committed tables, and it
    does so only when it succeeds. *)
Lemma all_or_nothing_commit {A : Type} (e : repository.env) (a : A) :
  all_or_nothing (request.commit e ≫= λ _, mret a).
Proof.
  intros s s' err. unfold mbind, request.M_bind, request.commit.
  destruct (repository.Commit e (request.tx s)).
  - unfold mret, request.M_ret. intros [=].
  - intros [= <- _]. done.
Qed.

Global Hint Resolve keeps_db_ret keeps_db_fail keeps_db_check
  keeps_db_get_trade keeps_db_set_trade keeps_db_query keeps_db_exec_tx
  keeps_db_begin_tx : ledger.

Ltac keeps_db_step :=
  first
    [ apply keeps_db_bind; [|intros ?]
    | progress eauto with ledger
    | match goal with |- keeps_db (match ?x with _ => _ end) => destruct x end
    | match goal with |- keeps_db (let _ := _ in _) => cbv zeta end ].

Lemma service_tx_ExecuteTrade_all_or_nothing (e : repository.env)
  (clock : nat → Time) (portfolioID : Z) (currentPrice : Qc) :
  all_or_nothing (service_tx.ExecuteTrade e clock portfolioID currentPrice).
Proof.
  unfold service_tx.ExecuteTrade.
  repeat (apply all_or_nothing_bind; [solve [repeat keeps_db_step] | intros ?]).
  apply all_or_nothing_commit.
Qed.

(** ** The orchestrated order *)

(** With the writes inside one transaction, a call of [ExecuteTrade] that
    returns an error leaves the three tables exactly as they were, whichever
    statement failed. *)
Lemma service_tx_ExecuteTrade_rollback (e : repository.env)
  (clock : nat → Time) (db : repository.DB) (portfolioID : Z)
  (trade : Trade.t) (currentPrice : Qc) :
  let r :=
    request.run (service_tx.ExecuteTrade e clock portfolioID currentPrice)
      db trade in
  is_Some (request.err r) → request.db' r = db.
Proof.
  intros r. subst r. unfold request.run.
  destruct (service_tx.ExecuteTrade e clock portfolioID currentPrice
              (request.mkState db db trade)) as [s [p|err]] eqn:Hrun; simpl.
  - intros [? ?]. done.
  - intros _.
    by apply (service_tx_ExecuteTrade_all_or_nothing _ _ _ _ _ _ _ Hrun).
Qed.


(** The same request against the transactional body leaves no trace. *)
Example service_tx_ExecuteTrade_no_partial_write :
  let r :=
    request.run
      (service_tx.ExecuteTrade position_insert_fails tick 1 (Qc_of_Z 150))
      scenario_A_db (order "buy" "AAPL" 10) in
  request.err r
  = Some (request.FailedToCreatePosition repository.DriverError)
  ∧ request.db' r = scenario_A_db.
Proof.
  intros r. split; [by vm_compute|].
  apply service_tx_ExecuteTrade_rollback. vm_compute. by eexists.
Qed.

(** ** The specification's scenarios and boundary cases *)

Ltac qc_compute := apply Qc_is_canon; vm_compute; reflexivity.

(** Scenario A: cash 100000, buy 10 AAPL at 150: fee 1.5, cash 98498.5. *)
Example scenario_A_cash :
  Portfolio.Cash
    (domain.portfolio'
       (domain.ExecuteTradeOrder tick (order "buy" "AAPL" 10) scenario_A
          (Qc_of_Z 150)))
  = Q2Qc (196997 # 2).
Proof. qc_compute. Qed.

(** Scenario B: a further 10 AAPL at 160: cash 96896.9, entry price 155. *)
Example scenario_B_cash_and_entry_price :
  let out :=
    domain.ExecuteTradeOrder tick (order "buy" "AAPL" 10) scenario_B
      (Qc_of_Z 160) in
  Portfolio.Cash (domain.portfolio' out) = Q2Qc (968969 # 10)
  ∧ (Position.EntryPrice <$> domain.position out) = Some (Qc_of_Z 155)
  ∧ (Position.Quantity <$> domain.position out) = Some 20%Z.
Proof.
  split; [qc_compute|]. split; [|by vm_compute].
  simpl. f_equal. qc_compute.
Qed.

(** Scenario C: sell the 20 AAPL at 155: cash 99993.8, position removed. *)
Example scenario_C_cash_and_close :
  let out :=
    domain.ExecuteTradeOrder tick (order "sell" "AAPL" 20) scenario_C
      (Qc_of_Z 155) in
  Portfolio.Cash (domain.portfolio' out) = Q2Qc (999938 # 10)
  ∧ Portfolio.Positions (domain.portfolio' out) = []
  ∧ domain.position out = None.
Proof. split; [qc_compute|]. split; by vm_compute. Qed.

(** C1, as stated, fails on a sell whose value is below the minimum fee:
    the portfolio has cash 0 and one share, validation accepts the sale of
    that share at 0.5, and the execution leaves cash 0 + 0.5 − 1 = −0.5. *)
Lemma validated_sell_below_minimum_fee_overdraws :
  0 ≤ Portfolio.Cash one_share
  ∧ domain.ValidateTradeOrder (order "sell" "AAPL" 1) one_share half = None
  ∧ Portfolio.Cash
      (domain.portfolio'
         (domain.ExecuteTradeOrder tick (order "sell" "AAPL" 1) one_share half))
    < 0.
Proof. split; [by vm_compute|]. split; by vm_compute. Qed.

Lemma validated_execution_cash_witness :
  0 ≤ Portfolio.Cash scenario_A
  ∧ domain.ValidateTradeOrder (order "buy" "AAPL" 10) scenario_A (Qc_of_Z 150)
    = None
  ∧ 0 ≤ Portfolio.Cash
          (domain.portfolio'
             (domain.ExecuteTradeOrder tick (order "buy" "AAPL" 10) scenario_A
                (Qc_of_Z 150))).
Proof.
  split; [by vm_compute|]. split; [by vm_compute|].
  refine (proj1 (proj2 (validated_execution_cash tick (order "buy" "AAPL" 10)
                          scenario_A (Qc_of_Z 150) _ _)) _);
    [by vm_compute | by vm_compute | reflexivity].
Defined.

Lemma buy_debits_cash_and_averages_entry_price_witness :
  Trade.Side (order "buy" "AAPL" 10) = "buy"
  ∧ domain.ValidateTradeOrder (order "buy" "AAPL" 10) scenario_B (Qc_of_Z 160)
    = None
  ∧ domain.err
      (domain.ExecuteTradeOrder tick (order "buy" "AAPL" 10) scenario_B
         (Qc_of_Z 160))
    = None.
Proof.
  split; [reflexivity|]. split; [by vm_compute|].
  refine (proj1 (buy_debits_cash_and_averages_entry_price tick
                   (order "buy" "AAPL" 10) scenario_B (Qc_of_Z 160) _ _));
    [reflexivity | by vm_compute].
Defined.

Lemma scenario_C_int64 : quantities_int64 scenario_C.
Proof.
  unfold quantities_int64. simpl. constructor; [|constructor].
  unfold in_int64, int64_min, int64_max. simpl. lia.
Defined.

Lemma sell_credits_cash_and_reduces_position_witness :
  quantities_int64 scenario_C
  ∧ Trade.Side (order "sell" "AAPL" 20) = "sell"
  ∧ domain.ValidateTradeOrder (order "sell" "AAPL" 20) scenario_C (Qc_of_Z 155)
    = None
  ∧ ∃ (k : nat) (old : Position.t),
      Portfolio.Positions scenario_C !! k = Some old
      ∧ Portfolio.Positions
          (domain.portfolio'
             (domain.ExecuteTradeOrder tick (order "sell" "AAPL" 20) scenario_C
                (Qc_of_Z 155)))
        = delete k (Portfolio.Positions scenario_C).
Proof.
  split; [exact scenario_C_int64|]. split; [reflexivity|].
  split; [by vm_compute|].
  destruct (sell_credits_cash_and_reduces_position tick
              (order "sell" "AAPL" 20) scenario_C (Qc_of_Z 155)
              scenario_C_int64 eq_refl)
    as (k & old & Hlook & Hfind & _ & _ & _ & Hclose & _); [by vm_compute|].
  exists k, old. split; [exact Hlook|].
  apply Hclose.
  vm_compute in Hfind. injection Hfind as <-. reflexivity.
Defined.

Lemma ExecuteTradeOrder_sell_without_position_witness :
  Trade.Side (order "sell" "AAPL" 1) = "sell"
  ∧ Forall (λ p, Position.Symbol p ≠ Trade.Symbol (order "sell" "AAPL" 1))
      (Portfolio.Positions unfunded)
  ∧ domain.portfolio'
      (domain.ExecuteTradeOrder tick (order "sell" "AAPL" 1) unfunded
         (Qc_of_Z 150))
    = unfunded.
Proof.
  split; [reflexivity|]. split; [constructor|].
  refine (proj1 (proj2 (proj2 (ExecuteTradeOrder_sell_without_position tick
                                 (order "sell" "AAPL" 1) unfunded (Qc_of_Z 150)
                                 _ _))));
    [reflexivity | constructor].
Defined.

(** C7, as stated, fails on a portfolio whose total value is not positive:
    the unfunded portfolio has no position, so every position has a price,
    but the guard [totalValue > 0] leaves the allocation map empty and the
    percentages sum to 0. *)
Lemma allocation_of_unfunded_portfolio_sums_to_zero :
  Forall (λ p, is_Some ((∅ : gmap string Qc) !! Position.Symbol p))
    (Portfolio.Positions unfunded)
  ∧ domain.CalculatePortfolioAllocation unfunded ∅ = ∅
  ∧ allocation_sum (domain.CalculatePortfolioAllocation unfunded ∅) = 0
  ∧ ¬ within lit_0_01
        (allocation_sum (domain.CalculatePortfolioAllocation unfunded ∅))
        lit_100.
Proof.
  split; [constructor|].
  assert (domain.CalculatePortfolioAllocation unfunded ∅ = ∅) as ->
    by reflexivity.
  split; [reflexivity|]. split; [reflexivity|].
  intros [_ H]. vm_compute in H. by apply H.
Qed.

(** Two positions carrying the same symbol share one map entry, and a
    position whose symbol is "CASH" overwrites the cash entry: in both cases
    the percentages no longer sum to 100. *)
Example allocation_with_repeated_symbol :
  allocation_sum
    (domain.CalculatePortfolioAllocation
       (ledger 0 [AAPL_position 1 1; AAPL_position 1 1])
       (<["AAPL" := 1]> ∅))
  = Qc_of_Z 50.
Proof. qc_compute. Qed.

Example allocation_with_symbol_CASH :
  allocation_sum
    (domain.CalculatePortfolioAllocation
       (ledger 1 [Position.mk 1 1 1 "CASH" 1 "long" 1 1 0 0 0%Z 0%Z])
       (<["CASH" := 1]> ∅))
  = Qc_of_Z 50.
Proof. qc_compute. Qed.

Lemma allocation_percentages_sum_to_100_witness :
  Forall (λ p, is_Some (test_prices !! Position.Symbol p))
    (Portfolio.Positions test_portfolio)
  ∧ 0 < domain.CalculatePortfolioValue test_portfolio test_prices
  ∧ NoDup (map Position.Symbol (Portfolio.Positions test_portfolio))
  ∧ ("CASH" ∉ map Position.Symbol (Portfolio.Positions test_portfolio))
  ∧ allocation_sum
      (domain.CalculatePortfolioAllocation test_portfolio test_prices)
    = lit_100.
Proof.
  assert (Forall (λ p, is_Some (test_prices !! Position.Symbol p))
            (Portfolio.Positions test_portfolio)) as Hpriced.
  { repeat constructor; by eexists. }
  assert (NoDup (map Position.Symbol (Portfolio.Positions test_portfolio)))
    as Hnodup.
  { apply (bool_decide_unpack _). by vm_compute. }
  assert ("CASH" ∉ map Position.Symbol (Portfolio.Positions test_portfolio))
    as Hcash.
  { apply (bool_decide_unpack _). by vm_compute. }
  split; [exact Hpriced|]. split; [by vm_compute|].
  split; [exact Hnodup|]. split; [exact Hcash|].
  refine (proj1 (allocation_percentages_sum_to_100 test_portfolio test_prices
                   Hpriced _ Hnodup Hcash)).
  by vm_compute.
Defined.

(** * Further properties of the rule engine *)

(** ** The five outcomes of [ExecuteTradeOrder] *)

Lemma ExecuteTradeOrder_buy_opens (now : nat → Time) (trade : Trade.t)
  (portfolio : Portfolio.t) (currentPrice : Qc) :
  Trade.Side trade = "buy" →
  domain.findPosition (Portfolio.Positions portfolio) (Trade.Symbol trade)
  = None →
  domain.ExecuteTradeOrder now trade portfolio currentPrice
  = domain.mkOutcome (filled now trade currentPrice)
      (Portfolio.with_Positions
         (Portfolio.Positions portfolio
          ++ [opened_position now trade currentPrice])
         (Portfolio.with_Cash
            (Portfolio.Cash portfolio
             - (trade_value trade currentPrice + trade_fee trade currentPrice))
            portfolio))
      (Some (opened_position now trade currentPrice)) None.
Proof.
  intros Hside Hfind.
  pose proof (findPositionByIndex_spec (Portfolio.Positions portfolio)
                (Trade.Symbol trade)) as Hidx.
  rewrite Hfind in Hidx.
  unfold domain.ExecuteTradeOrder. simpl. rewrite Hside, Hidx. reflexivity.
Qed.

Lemma ExecuteTradeOrder_buy_tops_up (now : nat → Time) (trade : Trade.t)
  (portfolio : Portfolio.t) (currentPrice : Qc) (old : Position.t) :
  Trade.Side trade = "buy" →
  domain.findPosition (Portfolio.Positions portfolio) (Trade.Symbol trade)
  = Some old →
  ∃ k : nat,
    domain.findPositionByIndex (Portfolio.Positions portfolio)
      (Trade.Symbol trade) = Z.of_nat k
    ∧ Portfolio.Positions portfolio !! k = Some old
    ∧ Position.Symbol old = Trade.Symbol trade
    ∧ domain.ExecuteTradeOrder now trade portfolio currentPrice
      = domain.mkOutcome (filled now trade currentPrice)
          (Portfolio.with_Positions
             (<[k := topped_up_position now trade currentPrice old]>
                (Portfolio.Positions portfolio))
             (Portfolio.with_Cash
                (Portfolio.Cash portfolio
                 - (trade_value trade currentPrice
                    + trade_fee trade currentPrice))
                portfolio))
          (Some (topped_up_position now trade currentPrice old)) None.
Proof.
  intros Hside Hfind.
  pose proof (findPositionByIndex_spec (Portfolio.Positions portfolio)
                (Trade.Symbol trade)) as Hidx.
  rewrite Hfind in Hidx. destruct Hidx as (k & Hk & Hlook & Hsym & _).
  exists k. split; [done|]. split; [done|]. split; [done|].
  unfold domain.ExecuteTradeOrder. simpl. rewrite Hside, Hk. simpl.
  destruct (decide (Z.of_nat k = (-1)%Z)) as [?|_]; [lia|].
  rewrite Nat2Z.id, Hlook. reflexivity.
Qed.

Lemma ExecuteTradeOrder_other_without_position (now : nat → Time)
  (trade : Trade.t) (portfolio : Portfolio.t) (currentPrice : Qc) :
  Trade.Side trade ≠ "buy" →
  domain.findPosition (Portfolio.Positions portfolio) (Trade.Symbol trade)
  = None →
  domain.ExecuteTradeOrder now trade portfolio currentPrice
  = domain.mkOutcome (filled now trade currentPrice) portfolio None
      (Some (domain.ErrPositionNotFound (Trade.Symbol trade))).
Proof.
  intros Hside Hfind.
  pose proof (findPositionByIndex_spec (Portfolio.Positions portfolio)
                (Trade.Symbol trade)) as Hidx.
  rewrite Hfind in Hidx.
  unfold domain.ExecuteTradeOrder. simpl. rewrite Hidx.
  destruct (decide (Trade.Side trade = "buy")) as [?|_]; [done|]. reflexivity.
Qed.

Lemma ExecuteTradeOrder_other_with_position (now : nat → Time)
  (trade : Trade.t) (portfolio : Portfolio.t) (currentPrice : Qc)
  (old : Position.t) :
  Trade.Side trade ≠ "buy" →
  domain.findPosition (Portfolio.Positions portfolio) (Trade.Symbol trade)
  = Some old →
  ∃ k : nat,
    domain.findPositionByIndex (Portfolio.Positions portfolio)
      (Trade.Symbol trade) = Z.of_nat k
    ∧ Portfolio.Positions portfolio !! k = Some old
    ∧ Position.Symbol old = Trade.Symbol trade
    ∧ domain.ExecuteTradeOrder now trade portfolio currentPrice
      = if decide (int64_sub (Position.Quantity old) (Trade.Quantity trade)
                   = 0%Z)
        then
          domain.mkOutcome (filled now trade currentPrice)
            (Portfolio.with_Positions
               (delete k (Portfolio.Positions portfolio))
               (Portfolio.with_Cash
                  (Portfolio.Cash portfolio
                   + (trade_value trade currentPrice
                      - trade_fee trade currentPrice))
                  portfolio))
            None None
        else
          domain.mkOutcome (filled now trade currentPrice)
            (Portfolio.with_Positions
               (<[k := reduced_position now trade currentPrice old]>
                  (Portfolio.Positions portfolio))
               (Portfolio.with_Cash
                  (Portfolio.Cash portfolio
                   + (trade_value trade currentPrice
                      - trade_fee trade currentPrice))
                  portfolio))
            (Some (reduced_position now trade currentPrice old)) None.
Proof.
  intros Hside Hfind.
  pose proof (findPositionByIndex_spec (Portfolio.Positions portfolio)
                (Trade.Symbol trade)) as Hidx.
  rewrite Hfind in Hidx. destruct Hidx as (k & Hk & Hlook & Hsym & _).
  exists k. split; [done|]. split; [done|]. split; [done|].
  unfold domain.ExecuteTradeOrder. simpl. rewrite Hk. simpl.
  destruct (decide (Trade.Side trade = "buy")) as [?|_]; [done|].
  destruct (decide (Z.of_nat k = (-1)%Z)) as [?|_]; [lia|].
  rewrite Nat2Z.id. simpl. rewrite Hlook. simpl.
  destruct (decide (int64_sub (Position.Quantity old) (Trade.Quantity trade)
                    = 0%Z)) as [Hz|Hnz].
  - simpl. rewrite remove_at_insert. reflexivity.
  - reflexivity.
Qed.

(** An order is executed along exactly one of the five outcomes. *)
Lemma ExecuteTradeOrder_cases (now : nat → Time) (trade : Trade.t)
  (portfolio : Portfolio.t) (currentPrice : Qc) :
  let out := domain.ExecuteTradeOrder now trade portfolio currentPrice in
  let positions := Portfolio.Positions portfolio in
  let debited :=
    Portfolio.with_Cash
      (Portfolio.Cash portfolio
       - (trade_value trade currentPrice + trade_fee trade currentPrice))
      portfolio in
  let credited :=
    Portfolio.with_Cash
      (Portfolio.Cash portfolio
       + (trade_value trade currentPrice - trade_fee trade currentPrice))
      portfolio in
  (Trade.Side trade = "buy"
   ∧ domain.findPosition positions (Trade.Symbol trade) = None
   ∧ out = domain.mkOutcome (filled now trade currentPrice)
             (Portfolio.with_Positions
                (positions ++ [opened_position now trade currentPrice])
                debited)
             (Some (opened_position now trade currentPrice)) None)
  ∨ (∃ (k : nat) (old : Position.t),
       Trade.Side trade = "buy"
       ∧ domain.findPosition positions (Trade.Symbol trade) = Some old
       ∧ positions !! k = Some old
       ∧ Position.Symbol old = Trade.Symbol trade
       ∧ out = domain.mkOutcome (filled now trade currentPrice)
                 (Portfolio.with_Positions
                    (<[k := topped_up_position now trade currentPrice old]>
                       positions)
                    debited)
                 (Some (topped_up_position now trade currentPrice old)) None)
  ∨ (Trade.Side trade ≠ "buy"
     ∧ domain.findPosition positions (Trade.Symbol trade) = None
     ∧ out = domain.mkOutcome (filled now trade currentPrice) portfolio None
               (Some (domain.ErrPositionNotFound (Trade.Symbol trade))))
  ∨ (∃ (k : nat) (old : Position.t),
       Trade.Side trade ≠ "buy"
       ∧ domain.findPosition positions (Trade.Symbol trade) = Some old
       ∧ positions !! k = Some old
       ∧ Position.Symbol old = Trade.Symbol trade
       ∧ int64_sub (Position.Quantity old) (Trade.Quantity trade) = 0%Z
       ∧ out = domain.mkOutcome (filled now trade currentPrice)
                 (Portfolio.with_Positions (delete k positions) credited)
                 None None)
  ∨ (∃ (k : nat) (old : Position.t),
       Trade.Side trade ≠ "buy"
       ∧ domain.findPosition positions (Trade.Symbol trade) = Some old
       ∧ positions !! k = Some old
       ∧ Position.Symbol old = Trade.Symbol trade
       ∧ int64_sub (Position.Quantity old) (Trade.Quantity trade) ≠ 0%Z
       ∧ out = domain.mkOutcome (filled now trade currentPrice)
                 (Portfolio.with_Positions
                    (<[k := reduced_position now trade currentPrice old]>
                       positions)
                    credited)
                 (Some (reduced_position now trade currentPrice old)) None).
Proof.
  intros out positions debited credited.
  subst out positions debited credited.
  destruct (decide (Trade.Side trade = "buy")) as [Hside|Hside];
    destruct (domain.findPosition (Portfolio.Positions portfolio)
                (Trade.Symbol trade)) as [old|] eqn:Hfind.
  - right; left.
    destruct (ExecuteTradeOrder_buy_tops_up now _ _ currentPrice _ Hside Hfind)
      as (k & _ & Hlook & Hsym & Hout).
    by exists k, old.
  - left. split; [done|]. split; [done|].
    by apply ExecuteTradeOrder_buy_opens.
  - destruct (ExecuteTradeOrder_other_with_position now _ _ currentPrice _
                Hside Hfind) as (k & _ & Hlook & Hsym & Hout).
    destruct (decide (int64_sub (Position.Quantity old) (Trade.Quantity trade)
                      = 0%Z)) as [Hz|Hnz].
    + do 3 right; left. by exists k, old.
    + do 4 right. by exists k, old.
  - do 2 right; left. split; [done|]. split; [done|].
    by apply ExecuteTradeOrder_other_without_position.
Qed.

(** X1.  The only error [ExecuteTradeOrder] returns is position-not-found,
    for an order whose side is not "buy" on a portfolio without a position
    for the symbol, and then it returns no position and leaves the portfolio
    as it was; in particular the slice index is never out of range.  After a
    successful [ValidateTradeOrder] on the same snapshot and price it returns
    no error at all. *)
Theorem ExecuteTradeOrder_errors (now : nat → Time) (trade : Trade.t)
  (portfolio : Portfolio.t) (currentPrice : Qc) :
  let out := domain.ExecuteTradeOrder now trade portfolio currentPrice in
  (∀ e, domain.err out = Some e →
        e = domain.ErrPositionNotFound (Trade.Symbol trade)
        ∧ Trade.Side trade ≠ "buy"
        ∧ domain.findPosition (Portfolio.Positions portfolio)
            (Trade.Symbol trade) = None
        ∧ domain.portfolio' out = portfolio
        ∧ domain.position out = None)
  ∧ (domain.ValidateTradeOrder trade portfolio currentPrice = None →
     domain.err out = None).
Proof.
  intros out. subst out.
  pose proof (ExecuteTradeOrder_cases now trade portfolio currentPrice) as H.
  simpl in H. split.
  - intros e He.
    destruct H as [(_ & _ & Hout)|[(k & old & _ & _ & _ & _ & Hout)
      |[(Hside & Hfind & Hout)|[(k & old & _ & _ & _ & _ & _ & Hout)
      |(k & old & _ & _ & _ & _ & _ & Hout)]]]];
      rewrite Hout in He |- *; simpl in *; try discriminate.
    injection He as <-. done.
  - intros Hvalid.
    destruct H as [(_ & _ & Hout)|[(k & old & _ & _ & _ & _ & Hout)
      |[(Hside & Hfind & Hout)|[(k & old & _ & _ & _ & _ & _ & Hout)
      |(k & old & _ & _ & _ & _ & _ & Hout)]]]];
      rewrite Hout; simpl; try done.
    exfalso. revert Hvalid. unfold domain.ValidateTradeOrder.
    rewrite Hfind. repeat case_decide; done.
Qed.

(** X2.  [ExecuteTradeOrder] treats every side other than "buy" as a sell:
    on the portfolio, the returned position and the error it does what it
    does for the same order with side "sell", and the stamped trade differs
    from that one in its side only. *)
Theorem ExecuteTradeOrder_other_side_sells (now : nat → Time)
  (trade : Trade.t) (portfolio : Portfolio.t) (currentPrice : Qc) :
  Trade.Side trade ≠ "buy" →
  let out := domain.ExecuteTradeOrder now trade portfolio currentPrice in
  let sold :=
    domain.ExecuteTradeOrder now (Trade.with_Side "sell" trade) portfolio
      currentPrice in
  domain.portfolio' out = domain.portfolio' sold
  ∧ domain.position out = domain.position sold
  ∧ domain.err out = domain.err sold
  ∧ domain.trade' out = Trade.with_Side (Trade.Side trade) (domain.trade' sold).
Proof.
  intros Hside out sold. subst out sold.
  assert (Trade.Side (Trade.with_Side "sell" trade) ≠ "buy") as Hsell by done.
  destruct (domain.findPosition (Portfolio.Positions portfolio)
              (Trade.Symbol trade)) as [old|] eqn:Hfind.
  - destruct (ExecuteTradeOrder_other_with_position now trade portfolio
                currentPrice old Hside Hfind) as (k & Hk & _ & _ & ->).
    destruct (ExecuteTradeOrder_other_with_position now
                (Trade.with_Side "sell" trade) portfolio currentPrice old
                Hsell Hfind) as (k' & Hk' & _ & _ & ->).
    simpl in Hk'. rewrite Hk in Hk'. apply Nat2Z.inj in Hk'. subst k'.
    simpl. case_decide; done.
  - rewrite (ExecuteTradeOrder_other_without_position now trade) by done.
    rewrite (ExecuteTradeOrder_other_without_position now
               (Trade.with_Side "sell" trade)) by done.
    done.
Qed.

(** ** What an order leaves alone *)

Lemma split_at (l : list Position.t) (k : nat) (old : Position.t) :
  l !! k = Some old →
  l = take k l ++ old :: drop (S k) l
  ∧ (∀ x, <[k := x]> l = take k l ++ x :: drop (S k) l)
  ∧ delete k l = take k l ++ drop (S k) l.
Proof.
  intros Hk. split; [by rewrite take_drop_middle|].
  split; [|apply delete_take_drop].
  intros x. apply insert_take_drop. by eapply lookup_lt_Some.
Qed.

Lemma other_symbols_insert (symbol : string) (l : list Position.t) (k : nat)
  (old x : Position.t) :
  l !! k = Some old → Position.Symbol old = symbol →
  Position.Symbol x = symbol →
  filter (λ p, Position.Symbol p ≠ symbol) (<[k := x]> l)
  = filter (λ p, Position.Symbol p ≠ symbol) l.
Proof.
  intros Hk Hold Hx.
  destruct (split_at l k old Hk) as (Hl & Hins & _).
  rewrite Hins. rewrite Hl at 3.
  rewrite !filter_app, !filter_cons.
  destruct (decide (Position.Symbol x ≠ symbol)); [done|].
  destruct (decide (Position.Symbol old ≠ symbol)); done.
Qed.

Lemma other_symbols_delete (symbol : string) (l : list Position.t) (k : nat)
  (old : Position.t) :
  l !! k = Some old → Position.Symbol old = symbol →
  filter (λ p, Position.Symbol p ≠ symbol) (delete k l)
  = filter (λ p, Position.Symbol p ≠ symbol) l.
Proof.
  intros Hk Hold.
  destruct (split_at l k old Hk) as (Hl & _ & Hdel).
  rewrite Hdel. rewrite Hl at 3.
  rewrite !filter_app, !filter_cons.
  destruct (decide (Position.Symbol old ≠ symbol)); done.
Qed.

Lemma symbols_insert (l : list Position.t) (k : nat) (old x : Position.t) :
  l !! k = Some old → Position.Symbol x = Position.Symbol old →
  map Position.Symbol (<[k := x]> l) = map Position.Symbol l.
Proof.
  intros Hk Hx.
  change (Position.Symbol <$> <[k := x]> l = Position.Symbol <$> l).
  rewrite list_fmap_insert, Hx. apply list_insert_id.
  by rewrite list_lookup_fmap, Hk.
Qed.

(** X3.  [ExecuteTradeOrder] changes the cash and at most the first position
    carrying the order's symbol.  The positions for every other symbol are
    the same, in the same order, after the call; so are the portfolio's
    identifiers, margins, timestamps and cached totals: the total value, the
    unrealized, realized and day PnL are not recomputed. *)
Theorem ExecuteTradeOrder_frame (now : nat → Time) (trade : Trade.t)
  (portfolio : Portfolio.t) (currentPrice : Qc) :
  let after :=
    domain.portfolio'
      (domain.ExecuteTradeOrder now trade portfolio currentPrice) in
  filter (λ p, Position.Symbol p ≠ Trade.Symbol trade)
    (Portfolio.Positions after)
  = filter (λ p, Position.Symbol p ≠ Trade.Symbol trade)
      (Portfolio.Positions portfolio)
  ∧ Portfolio.ID after = Portfolio.ID portfolio
  ∧ Portfolio.UserID after = Portfolio.UserID portfolio
  ∧ Portfolio.MarginUsed after = Portfolio.MarginUsed portfolio
  ∧ Portfolio.MarginAvailable after = Portfolio.MarginAvailable portfolio
  ∧ Portfolio.TotalValue after = Portfolio.TotalValue portfolio
  ∧ Portfolio.UnrealizedPnL after = Portfolio.UnrealizedPnL portfolio
  ∧ Portfolio.RealizedPnL after = Portfolio.RealizedPnL portfolio
  ∧ Portfolio.DayPnL after = Portfolio.DayPnL portfolio
  ∧ Portfolio.CreatedAt after = Portfolio.CreatedAt portfolio
  ∧ Portfolio.UpdatedAt after = Portfolio.UpdatedAt portfolio.
Proof.
  intros after. subst after.
  pose proof (ExecuteTradeOrder_cases now trade portfolio currentPrice) as H.
  simpl in H.
  destruct H as [(_ & _ & ->)|[(k & old & _ & _ & Hk & Hsym & ->)
    |[(_ & _ & ->)|[(k & old & _ & _ & Hk & Hsym & _ & ->)
    |(k & old & _ & _ & Hk & Hsym & _ & ->)]]]]; simpl;
    (split; [|done]).
  - rewrite filter_app, filter_cons. simpl.
    destruct (decide (Trade.Symbol trade ≠ Trade.Symbol trade)); [done|].
    by rewrite filter_nil, app_nil_r.
  - by apply (other_symbols_insert _ _ _ old).
  - done.
  - by apply (other_symbols_delete _ _ _ old).
  - by apply (other_symbols_insert _ _ _ old).
Qed.

(** X4.  When the positions of a portfolio carry pairwise distinct symbols,
    they still do after [ExecuteTradeOrder], whatever the order: a buy opens
    a position only for a symbol no position carries. *)
Theorem ExecuteTradeOrder_keeps_symbols_distinct (now : nat → Time)
  (trade : Trade.t) (portfolio : Portfolio.t) (currentPrice : Qc) :
  NoDup (map Position.Symbol (Portfolio.Positions portfolio)) →
  NoDup
    (map Position.Symbol
       (Portfolio.Positions
          (domain.portfolio'
             (domain.ExecuteTradeOrder now trade portfolio currentPrice)))).
Proof.
  intros Hnodup.
  pose proof (ExecuteTradeOrder_cases now trade portfolio currentPrice) as H.
  simpl in H.
  destruct H as [(_ & Hfind & ->)|[(k & old & _ & _ & Hk & Hsym & ->)
    |[(_ & _ & ->)|[(k & old & _ & _ & Hk & Hsym & _ & ->)
    |(k & old & _ & _ & Hk & Hsym & _ & ->)]]]]; simpl.
  - rewrite map_app. simpl. apply NoDup_app. split; [done|].
    split; [|apply NoDup_singleton].
    intros s Hs Hin. apply list_elem_of_singleton in Hin. subst s.
    apply findPosition_None in Hfind.
    apply list_elem_of_fmap in Hs as (p & Hp & Hpin).
    rewrite list.Forall_forall in Hfind. by apply (Hfind p).
  - by rewrite (symbols_insert _ _ old).
  - done.
  - change (NoDup (Position.Symbol
                     <$> delete k (Portfolio.Positions portfolio))).
    rewrite list_fmap_delete.
    apply (sublist_NoDup _ _ Hnodup), sublist_delete.
  - by rewrite (symbols_insert _ _ old).
Qed.

(** ** Invariants of a validated order *)

Lemma ValidateTradeOrder_ok_side (trade : Trade.t) (portfolio : Portfolio.t)
  (currentPrice : Qc) :
  domain.ValidateTradeOrder trade portfolio currentPrice = None →
  Trade.Side trade = "buy" ∨ Trade.Side trade = "sell".
Proof.
  unfold domain.ValidateTradeOrder. repeat case_decide; try done; auto.
Qed.

Lemma validated_sell_quantity (trade : Trade.t) (portfolio : Portfolio.t)
  (currentPrice : Qc) (old : Position.t) :
  quantities_int64 portfolio →
  Trade.Side trade ≠ "buy" →
  domain.ValidateTradeOrder trade portfolio currentPrice = None →
  domain.findPosition (Portfolio.Positions portfolio) (Trade.Symbol trade)
  = Some old →
  (0 < Trade.Quantity trade ≤ Position.Quantity old)%Z
  ∧ int64_sub (Position.Quantity old) (Trade.Quantity trade)
    = (Position.Quantity old - Trade.Quantity trade)%Z.
Proof.
  intros Hint Hside Hvalid Hfind.
  destruct (ValidateTradeOrder_ok_side _ _ _ Hvalid) as [?|Hsell]; [done|].
  destruct (ValidateTradeOrder_ok_sell _ _ _ Hsell Hvalid)
    as (Hq & _ & old' & Hfind' & Hle).
  rewrite Hfind in Hfind'. injection Hfind' as <-.
  split; [lia|].
  pose proof (findPositionByIndex_spec (Portfolio.Positions portfolio)
                (Trade.Symbol trade)) as Hidx.
  rewrite Hfind in Hidx. destruct Hidx as (k & _ & Hlook & _).
  assert (in_int64 (Position.Quantity old)) as Hold.
  { unfold quantities_int64 in Hint. rewrite Forall_lookup in Hint.
    by apply (Hint k). }
  apply int64_sub_exact. unfold in_int64, int64_min, int64_max in *. lia.
Qed.

(** X5.  On a portfolio whose positions all hold a positive [int64]
    quantity, an order accepted by [ValidateTradeOrder] leaves every position
    with a positive quantity, provided a buy does not push the quantity of
    the position it tops up past the [int64] range: a sell that uses up a
    position removes it instead of keeping it at zero. *)
Theorem validated_order_keeps_quantities_positive (now : nat → Time)
  (trade : Trade.t) (portfolio : Portfolio.t) (currentPrice : Qc) :
  quantities_int64 portfolio →
  Forall (λ p, (0 < Position.Quantity p)%Z) (Portfolio.Positions portfolio) →
  domain.ValidateTradeOrder trade portfolio currentPrice = None →
  (∀ old,
     Trade.Side trade = "buy" →
     domain.findPosition (Portfolio.Positions portfolio) (Trade.Symbol trade)
     = Some old →
     in_int64 (Position.Quantity old + Trade.Quantity trade)) →
  Forall (λ p, (0 < Position.Quantity p)%Z)
    (Portfolio.Positions
       (domain.portfolio'
          (domain.ExecuteTradeOrder now trade portfolio currentPrice))).
Proof.
  intros Hint Hpos Hvalid Hfit.
  pose proof (ExecuteTradeOrder_cases now trade portfolio currentPrice) as H.
  simpl in H.
  destruct H as [(Hside & _ & ->)|[(k & old & Hside & Hfind & Hk & Hsym & ->)
    |[(_ & _ & ->)|[(k & old & _ & _ & Hk & Hsym & _ & ->)
    |(k & old & Hside & Hfind & Hk & Hsym & Hnz & ->)]]]]; simpl.
  - apply Forall_app. split; [done|]. constructor; [|constructor]. simpl.
    by destruct (ValidateTradeOrder_ok_buy _ _ _ Hside Hvalid).
  - apply Forall_insert; [done|]. simpl.
    rewrite int64_add_exact by auto.
    destruct (ValidateTradeOrder_ok_buy _ _ _ Hside Hvalid) as (Hq & _).
    rewrite Forall_lookup in Hpos. pose proof (Hpos k old Hk). simpl in *. lia.
  - done.
  - by apply Forall_delete.
  - apply Forall_insert; [done|]. simpl.
    destruct (validated_sell_quantity _ _ _ _ Hint Hside Hvalid Hfind)
      as (Hq & Hsub).
    rewrite Hsub in Hnz |- *. lia.
Qed.

Lemma Qcsum_app (l k : list Qc) : Qcsum (l ++ k) = Qcsum l + Qcsum k.
Proof. induction l as [|x l IH]; simpl; [ring | rewrite IH; ring]. Qed.

Lemma Qcsum_insert (f : Position.t → Qc) (l : list Position.t) (k : nat)
  (old x : Position.t) :
  l !! k = Some old →
  Qcsum (map f (<[k := x]> l)) + f old = Qcsum (map f l) + f x.
Proof.
  intros Hk. destruct (split_at l k old Hk) as (Hl & Hins & _).
  rewrite Hins. rewrite Hl at 3.
  rewrite !map_app, !Qcsum_app. simpl. ring.
Qed.

Lemma Qcsum_delete (f : Position.t → Qc) (l : list Position.t) (k : nat)
  (old : Position.t) :
  l !! k = Some old →
  Qcsum (map f (delete k l)) + f old = Qcsum (map f l).
Proof.
  intros Hk. destruct (split_at l k old Hk) as (Hl & _ & Hdel).
  rewrite Hdel. rewrite Hl at 3.
  rewrite !map_app, !Qcsum_app. simpl. ring.
Qed.

(** X6.  An order accepted by [ValidateTradeOrder] and executed at the
    price the price map gives its symbol lowers the portfolio value by
    exactly the fee: the cash moved and the shares moved cancel.  Quantities
    are [int64] values and a buy does not push the topped-up quantity past
    the [int64] range. *)
Theorem validated_order_costs_the_fee (now : nat → Time) (trade : Trade.t)
  (portfolio : Portfolio.t) (currentPrice : Qc)
  (currentPrices : gmap string Qc) :
  quantities_int64 portfolio →
  domain.ValidateTradeOrder trade portfolio currentPrice = None →
  currentPrices !! Trade.Symbol trade = Some currentPrice →
  (∀ old,
     Trade.Side trade = "buy" →
     domain.findPosition (Portfolio.Positions portfolio) (Trade.Symbol trade)
     = Some old →
     in_int64 (Position.Quantity old + Trade.Quantity trade)) →
  domain.CalculatePortfolioValue
    (domain.portfolio'
       (domain.ExecuteTradeOrder now trade portfolio currentPrice))
    currentPrices
  = domain.CalculatePortfolioValue portfolio currentPrices
    - domain.calculateCommission
        (float64_of_int64 (Trade.Quantity trade) * currentPrice).
Proof.
  intros Hint Hvalid Hprice Hfit.
  rewrite !CalculatePortfolioValue_sum.
  pose proof (ExecuteTradeOrder_cases now trade portfolio currentPrice) as H.
  simpl in H. unfold trade_fee, trade_value in H.
  set (fee := domain.calculateCommission
                (float64_of_int64 (Trade.Quantity trade) * currentPrice)) in *.
  set (pv := position_value currentPrices).
  destruct H as [(Hside & _ & ->)|[(k & old & Hside & Hfind & Hk & Hsym & ->)
    |[(Hside & Hfind & ->)|[(k & old & Hside & Hfind & Hk & Hsym & Hz & ->)
    |(k & old & Hside & Hfind & Hk & Hsym & Hnz & ->)]]]]; simpl.
  - rewrite map_app, Qcsum_app. simpl.
    assert (pv (opened_position now trade currentPrice)
            = float64_of_int64 (Trade.Quantity trade) * currentPrice) as ->.
    { unfold pv, position_value. simpl. by rewrite Hprice. }
    ring.
  - pose proof (Qcsum_insert pv _ _ _
                  (topped_up_position now trade currentPrice old) Hk) as Hsum.
    assert (pv old = float64_of_int64 (Position.Quantity old) * currentPrice)
      as Hold.
    { unfold pv, position_value. by rewrite Hsym, Hprice. }
    assert (pv (topped_up_position now trade currentPrice old)
            = (float64_of_int64 (Position.Quantity old)
               + float64_of_int64 (Trade.Quantity trade)) * currentPrice)
      as Hnew.
    { unfold pv, position_value. simpl. rewrite Hsym, Hprice.
      rewrite int64_add_exact by auto.
      unfold float64_of_int64. by rewrite Z2Qc_inj_add. }
    rewrite Hold, Hnew in Hsum.
    apply (Qcplus_inj_l
             (float64_of_int64 (Position.Quantity old) * currentPrice)).
    simpl.
    transitivity
      (Portfolio.Cash portfolio
       - (float64_of_int64 (Trade.Quantity trade) * currentPrice + fee)
       + (Qcsum
            (map pv
               (<[k:=topped_up_position now trade currentPrice old]>
                  (Portfolio.Positions portfolio)))
          + float64_of_int64 (Position.Quantity old) * currentPrice));
      [ring|].
    rewrite Hsum. ring.
  - exfalso. revert Hvalid. unfold domain.ValidateTradeOrder.
    rewrite Hfind. repeat case_decide; done.
  - pose proof (Qcsum_delete pv _ _ _ Hk) as Hsum.
    destruct (validated_sell_quantity _ _ _ _ Hint Hside Hvalid Hfind)
      as (Hq & Hsub).
    assert (Position.Quantity old = Trade.Quantity trade) as Hsame
      by (rewrite Hsub in Hz; lia).
    assert (pv old = float64_of_int64 (Trade.Quantity trade) * currentPrice)
      as Hold.
    { unfold pv, position_value. by rewrite Hsym, Hprice, Hsame. }
    rewrite Hold in Hsum. rewrite <- Hsum. ring.
  - pose proof (Qcsum_insert pv _ _ _
                  (reduced_position now trade currentPrice old) Hk) as Hsum.
    destruct (validated_sell_quantity _ _ _ _ Hint Hside Hvalid Hfind)
      as (Hq & Hsub).
    assert (pv old = float64_of_int64 (Position.Quantity old) * currentPrice)
      as Hold.
    { unfold pv, position_value. by rewrite Hsym, Hprice. }
    assert (pv (reduced_position now trade currentPrice old)
            = (float64_of_int64 (Position.Quantity old)
               - float64_of_int64 (Trade.Quantity trade)) * currentPrice)
      as Hnew.
    { unfold pv, position_value. simpl. rewrite Hsym, Hprice, Hsub.
      unfold float64_of_int64. by rewrite Z2Qc_inj_sub. }
    rewrite Hold, Hnew in Hsum.
    apply (Qcplus_inj_l
             (float64_of_int64 (Position.Quantity old) * currentPrice)).
    simpl.
    transitivity
      (Portfolio.Cash portfolio
       + (float64_of_int64 (Trade.Quantity trade) * currentPrice - fee)
       + (Qcsum
            (map pv
               (<[k:=reduced_position now trade currentPrice old]>
                  (Portfolio.Positions portfolio)))
          + float64_of_int64 (Position.Quantity old) * currentPrice));
      [ring|].
    rewrite Hsum. ring.
Qed.

Lemma findPosition_app_None (l k : list Position.t) (symbol : string) :
  domain.findPosition l symbol = None →
  domain.findPosition (l ++ k) symbol = domain.findPosition k symbol.
Proof.
  induction l as [|p l IH]; simpl; [done|].
  destruct (decide (Position.Symbol p = symbol)); [done | apply IH].
Qed.

(** X7.  Buying into a symbol the portfolio holds no position in and then
    selling the same quantity gives back the list of positions the portfolio
    started with; the sell returns no position and no error, and the cash
    ends at the starting cash less the bought value and its fee plus the
    sold value less its fee. *)
Theorem buy_then_sell_restores_positions (now now' : nat → Time)
  (trade : Trade.t) (portfolio : Portfolio.t) (buyPrice sellPrice : Qc) :
  Trade.Side trade = "buy" →
  Forall (λ p, Position.Symbol p ≠ Trade.Symbol trade)
    (Portfolio.Positions portfolio) →
  let q := float64_of_int64 (Trade.Quantity trade) in
  let bought := domain.ExecuteTradeOrder now trade portfolio buyPrice in
  let sold :=
    domain.ExecuteTradeOrder now' (Trade.with_Side "sell" trade)
      (domain.portfolio' bought) sellPrice in
  domain.err bought = None
  ∧ domain.err sold = None
  ∧ domain.position sold = None
  ∧ Portfolio.Positions (domain.portfolio' sold)
    = Portfolio.Positions portfolio
  ∧ Portfolio.Cash (domain.portfolio' sold)
    = Portfolio.Cash portfolio
      - q * buyPrice - domain.calculateCommission (q * buyPrice)
      + q * sellPrice - domain.calculateCommission (q * sellPrice).
Proof.
  intros Hside Hnone q bought sold. subst q bought sold.
  apply findPosition_None in Hnone.
  rewrite (ExecuteTradeOrder_buy_opens now trade portfolio buyPrice Hside Hnone).
  simpl.
  set (new := opened_position now trade buyPrice).
  set (after :=
         Portfolio.with_Positions (Portfolio.Positions portfolio ++ [new])
           (Portfolio.with_Cash
              (Portfolio.Cash portfolio
               - (trade_value trade buyPrice + trade_fee trade buyPrice))
              portfolio)).
  assert (domain.findPosition (Portfolio.Positions after)
            (Trade.Symbol (Trade.with_Side "sell" trade)) = Some new)
    as Hfind.
  { simpl. rewrite findPosition_app_None by done. simpl.
    destruct (decide (Trade.Symbol trade = Trade.Symbol trade)); done. }
  destruct (ExecuteTradeOrder_other_with_position now'
              (Trade.with_Side "sell" trade) after sellPrice new
              ltac:(done) Hfind) as (k & _ & Hk & _ & ->).
  assert (k = length (Portfolio.Positions portfolio)) as ->.
  { simpl in Hk.
    destruct (decide (k < length (Portfolio.Positions portfolio))%nat)
      as [Hlt|Hge].
    - exfalso. rewrite lookup_app_l in Hk by done.
      apply findPosition_None in Hnone.
      rewrite Forall_lookup in Hnone. by apply (Hnone k new Hk).
    - apply lookup_lt_Some in Hk. rewrite length_app in Hk. simpl in Hk. lia. }
  assert (int64_sub (Position.Quantity new)
            (Trade.Quantity (Trade.with_Side "sell" trade)) = 0%Z) as Hzero.
  { simpl. unfold int64_sub. by rewrite Z.sub_diag. }
  rewrite Hzero. simpl.
  split; [done|]. split; [done|]. split; [done|]. split.
  - rewrite (delete_middle _ [] new). apply app_nil_r.
  - unfold trade_fee, trade_value. simpl. ring.
Qed.

(** ** Valuation *)



Lemma CalculateUnrealizedPnL_fold (currentPrices : gmap string Qc)
  (positions : list Position.t) (acc : Qc) :
  foldl
    (λ totalPnL position,
       match currentPrices !! Position.Symbol position with
       | Some currentPrice =>
           let unrealizedPnL :=
             (currentPrice - Position.EntryPrice position)
             * float64_of_int64 (Position.Quantity position) in
           totalPnL + unrealizedPnL
       | None => totalPnL
       end)
    acc positions
  = acc + Qcsum (map (position_pnl currentPrices) positions).
Proof.
  revert acc. induction positions as [|p l IH]; intros acc; simpl; [ring|].
  rewrite IH. unfold position_pnl at 2.
  destruct (currentPrices !! Position.Symbol p); simpl; ring.
Qed.

Lemma CalculateUnrealizedPnL_sum (positions : list Position.t)
  (currentPrices : gmap string Qc) :
  domain.CalculateUnrealizedPnL positions currentPrices
  = Qcsum (map (position_pnl currentPrices) positions).
Proof.
  unfold domain.CalculateUnrealizedPnL.
  rewrite CalculateUnrealizedPnL_fold. ring.
Qed.

(** X9.  When every position's symbol has a price, the value of the
    positions (portfolio value less cash) is what they cost at their entry
    prices plus the unrealized profit [CalculateUnrealizedPnL] reports. *)
Theorem positions_value_is_cost_plus_unrealized_pnl (portfolio : Portfolio.t)
  (currentPrices : gmap string Qc) :
  Forall (λ p, is_Some (currentPrices !! Position.Symbol p))
    (Portfolio.Positions portfolio) →
  domain.CalculatePortfolioValue portfolio currentPrices
  - Portfolio.Cash portfolio
  = cost_basis (Portfolio.Positions portfolio)
    + domain.CalculateUnrealizedPnL (Portfolio.Positions portfolio)
        currentPrices.
Proof.
  intros Hpriced.
  rewrite CalculatePortfolioValue_sum, CalculateUnrealizedPnL_sum.
  unfold cost_basis.
  induction Hpriced as [|p l [cp Hp] _ IH]; simpl; [ring|].
  unfold position_value at 1, position_pnl at 1. rewrite Hp.
  transitivity
    (Portfolio.Cash portfolio
     + Qcsum (map (position_value currentPrices) l) - Portfolio.Cash portfolio
     + float64_of_int64 (Position.Quantity p) * cp); [ring|].
  rewrite IH. ring.
Qed.

Lemma UpdatePortfolioWithMarketData_loop_spec (now : nat → Time)
  (currentPrices : gmap string Qc) (positions : list Position.t) (k : nat)
  (totalUnrealizedPnL totalValue : Qc) :
  ∃ (positions' : list Position.t) (k' : nat),
    domain.UpdatePortfolioWithMarketData_loop now k currentPrices positions
      totalUnrealizedPnL totalValue
    = (positions',
       totalUnrealizedPnL + Qcsum (map (position_pnl currentPrices) positions),
       totalValue + Qcsum (map (position_value currentPrices) positions),
       k')
    ∧ Forall2 (marked_to_market currentPrices) positions positions'.
Proof.
  revert k totalUnrealizedPnL totalValue.
  induction positions as [|p l IH]; intros k pnl value; simpl.
  - exists [], k. split; [|constructor].
    repeat apply (f_equal2 pair); try reflexivity; ring.
  - unfold position_pnl at 1, position_value at 1.
    destruct (currentPrices !! Position.Symbol p) as [cp|] eqn:Hp.
    + destruct (IH (S k)
                  (pnl + (cp - Position.EntryPrice p)
                         * float64_of_int64 (Position.Quantity p))
                  (value + float64_of_int64 (Position.Quantity p) * cp))
        as (l' & k' & Hloop & Hrel).
      simpl. rewrite Hloop.
      eexists _, k'. split.
      * repeat apply (f_equal2 pair); try reflexivity; ring.
      * constructor; [|done].
        unfold marked_to_market. simpl. rewrite Hp. done.
    + destruct (IH k pnl value) as (l' & k' & Hloop & Hrel).
      rewrite Hloop. eexists _, k'. split.
      * repeat apply (f_equal2 pair); try reflexivity; ring.
      * constructor; [|done].
        unfold marked_to_market. rewrite Hp. done.
Qed.

Lemma marked_to_market_value (currentPrices : gmap string Qc)
  (l l' : list Position.t) :
  Forall2 (marked_to_market currentPrices) l l' →
  map (position_value currentPrices) l' = map (position_value currentPrices) l
  ∧ map (position_pnl currentPrices) l' = map (position_pnl currentPrices) l.
Proof.
  induction 1 as [|p p' l l' Hp _ IH]; simpl; [done|].
  destruct IH as [-> ->].
  destruct Hp as (_ & _ & _ & Hs & Hq & _ & He & _).
  unfold position_value, position_pnl. by rewrite Hs, Hq, He.
Qed.

(** X10.  [UpdatePortfolioWithMarketData] stores in the portfolio the total
    value [CalculatePortfolioValue] computes and the profit
    [CalculateUnrealizedPnL] computes; it leaves the cash, the realized
    profit and the number of positions alone, marks each priced position to
    its price and leaves unpriced ones as they are.  Valuing the updated
    portfolio again gives the same total, and when every position is priced
    the stored profit is the sum of the positions' stored profits. *)
Theorem UpdatePortfolioWithMarketData_totals (now : nat → Time)
  (portfolio : Portfolio.t) (currentPrices : gmap string Qc) :
  let updated :=
    domain.UpdatePortfolioWithMarketData now portfolio currentPrices in
  Portfolio.TotalValue updated
  = domain.CalculatePortfolioValue portfolio currentPrices
  ∧ Portfolio.UnrealizedPnL updated
    = domain.CalculateUnrealizedPnL (Portfolio.Positions portfolio)
        currentPrices
  ∧ Portfolio.Cash updated = Portfolio.Cash portfolio
  ∧ Portfolio.RealizedPnL updated = Portfolio.RealizedPnL portfolio
  ∧ Forall2 (marked_to_market currentPrices)
      (Portfolio.Positions portfolio) (Portfolio.Positions updated)
  ∧ domain.CalculatePortfolioValue updated currentPrices
    = Portfolio.TotalValue updated
  ∧ (Forall (λ p, is_Some (currentPrices !! Position.Symbol p))
       (Portfolio.Positions portfolio) →
     Portfolio.UnrealizedPnL updated
     = Qcsum (map Position.UnrealizedPnL (Portfolio.Positions updated))).
Proof.
  intros updated. subst updated.
  unfold domain.UpdatePortfolioWithMarketData.
  destruct (UpdatePortfolioWithMarketData_loop_spec now currentPrices
              (Portfolio.Positions portfolio) 0 0 (Portfolio.Cash portfolio))
    as (l' & k' & -> & Hrel).
  simpl.
  destruct (marked_to_market_value _ _ _ Hrel) as [Hv Hp].
  split; [by rewrite CalculatePortfolioValue_sum|].
  split; [rewrite CalculateUnrealizedPnL_sum; ring|].
  split; [done|]. split; [done|]. split; [done|].
  split.
  - rewrite CalculatePortfolioValue_sum. simpl. by rewrite Hv.
  - intros Hpriced. rewrite Qcplus_0_l. f_equal.
    clear Hv Hp.
    induction Hrel as [|p p' l l' Hpp _ IH]; simpl; [done|].
    inversion Hpriced as [|? ? [cp Hcp] Hrest]; subst.
    rewrite IH by done. f_equal.
    destruct Hpp as (_ & _ & _ & _ & _ & _ & _ & _ & _ & Hm).
    rewrite Hcp in Hm. destruct Hm as [_ ->].
    unfold position_pnl. by rewrite Hcp.
Qed.

Lemma dayPnL_fold (currentPrices previousDayPrices : gmap string Qc)
  (positions : list Position.t) (acc : Qc) :
  Forall (λ p, is_Some (currentPrices !! Position.Symbol p)
               ∧ is_Some (previousDayPrices !! Position.Symbol p))
    positions →
  foldl
    (λ dayPnL position,
       match currentPrices !! Position.Symbol position with
       | Some currentPrice =>
           match previousDayPrices !! Position.Symbol position with
           | Some previousPrice =>
               let dayChange :=
                 (currentPrice - previousPrice)
                 * float64_of_int64 (Position.Quantity position) in
               dayPnL + dayChange
           | None => dayPnL
           end
       | None => dayPnL
       end)
    acc positions
  = acc + Qcsum (map (position_value currentPrices) positions)
    - Qcsum (map (position_value previousDayPrices) positions).
Proof.
  intros Hpriced. revert acc.
  induction Hpriced as [|p l [[cp Hc] [pp Hp]] _ IH]; intros acc; simpl;
    [ring|].
  assert (position_value currentPrices p
          = float64_of_int64 (Position.Quantity p) * cp) as Ec
    by (unfold position_value; by rewrite Hc).
  assert (position_value previousDayPrices p
          = float64_of_int64 (Position.Quantity p) * pp) as Ep
    by (unfold position_value; by rewrite Hp).
  rewrite Hc, Hp. simpl. rewrite IH, Ec, Ep. ring.
Qed.

Lemma dayPnL_same_prices (currentPrices : gmap string Qc)
  (positions : list Position.t) (acc : Qc) :
  foldl
    (λ dayPnL position,
       match currentPrices !! Position.Symbol position with
       | Some currentPrice =>
           match currentPrices !! Position.Symbol position with
           | Some previousPrice =>
               let dayChange :=
                 (currentPrice - previousPrice)
                 * float64_of_int64 (Position.Quantity position) in
               dayPnL + dayChange
           | None => dayPnL
           end
       | None => dayPnL
       end)
    acc positions
  = acc.
Proof.
  revert acc. induction positions as [|p l IH]; intros acc; simpl; [done|].
  rewrite IH. destruct (currentPrices !! Position.Symbol p); simpl; ring.
Qed.

(** X11.  In the summary the total value is the cash plus the positions
    value, the unrealized profit is the one [CalculateUnrealizedPnL]
    computes and the position count is the number of positions.  The day
    return is 0 when the total value is not positive and the total return is
    0 when the positions value is not positive.  When both price maps price
    every position the day PnL is the portfolio value at the current prices
    less its value at the previous day's prices; with the same prices for
    both days the day PnL and the day return are 0. *)
Theorem CalculatePortfolioSummary_figures (portfolio : Portfolio.t)
  (currentPrices previousDayPrices : gmap string Qc) :
  let summary :=
    domain.CalculatePortfolioSummary portfolio currentPrices
      previousDayPrices in
  PortfolioSummary.TotalValue summary
  = domain.CalculatePortfolioValue portfolio currentPrices
  ∧ PortfolioSummary.Cash summary + PortfolioSummary.PositionsValue summary
    = PortfolioSummary.TotalValue summary
  ∧ PortfolioSummary.UnrealizedPnL summary
    = domain.CalculateUnrealizedPnL (Portfolio.Positions portfolio)
        currentPrices
  ∧ PortfolioSummary.PositionCount summary
    = length (Portfolio.Positions portfolio)
  ∧ (PortfolioSummary.TotalValue summary ≤ 0 →
     PortfolioSummary.DayReturn summary = 0)
  ∧ (PortfolioSummary.PositionsValue summary ≤ 0 →
     PortfolioSummary.TotalReturn summary = 0)
  ∧ (Forall (λ p, is_Some (currentPrices !! Position.Symbol p)
                  ∧ is_Some (previousDayPrices !! Position.Symbol p))
       (Portfolio.Positions portfolio) →
     PortfolioSummary.DayPnL summary
     = domain.CalculatePortfolioValue portfolio currentPrices
       - domain.CalculatePortfolioValue portfolio previousDayPrices)
  ∧ (previousDayPrices = currentPrices →
     PortfolioSummary.DayPnL summary = 0
     ∧ PortfolioSummary.DayReturn summary = 0).
Proof.
  intros summary. subst summary. simpl.
  split; [done|]. split; [ring|]. split; [done|]. split; [done|].
  split.
  { intros Hle. destruct (decide _) as [Hlt|_]; [|done].
    exfalso. qc_contra. }
  split.
  { intros Hle. destruct (decide _) as [Hlt|_]; [|done].
    exfalso. qc_contra. }
  split.
  - intros Hpriced. rewrite dayPnL_fold by done.
    rewrite !CalculatePortfolioValue_sum. ring.
  - intros ->. rewrite dayPnL_same_prices.
    split; [done|]. destruct (decide _); [|done].
    unfold Qcdiv. ring.
Qed.

(** X12.  In a position summary the market value is the cost at the entry
    price plus the unrealized profit; the long and net quantities are the
    position's quantity and the short quantity is 0.  The unrealized return
    is 0 when the entry price is not positive, and for a positive entry
    price and a quantity other than 0 it is the relative price change in
    per cent, (current price − entry price) / entry price × 100. *)
Theorem CalculatePositionSummary_figures (position : Position.t)
  (currentPrice : Qc) :
  let summary := domain.CalculatePositionSummary position currentPrice in
  PositionSummary.MarketValue summary
  = Position.EntryPrice position
    * float64_of_int64 (Position.Quantity position)
    + PositionSummary.UnrealizedPnL summary
  ∧ PositionSummary.NetQuantity summary = Position.Quantity position
  ∧ PositionSummary.LongQuantity summary = Position.Quantity position
  ∧ PositionSummary.ShortQuantity summary = 0%Z
  ∧ (Position.EntryPrice position ≤ 0 →
     PositionSummary.UnrealizedReturn summary = 0)
  ∧ (0 < Position.EntryPrice position →
     Position.Quantity position ≠ 0%Z →
     PositionSummary.UnrealizedReturn summary
     = (currentPrice - Position.EntryPrice position)
       / Position.EntryPrice position * lit_100).
Proof.
  intros summary. subst summary. simpl.
  split; [ring|]. split; [done|]. split; [done|]. split; [done|].
  split.
  - intros Hle. destruct (decide _) as [Hlt|_]; [|done]. exfalso. qc_contra.
  - intros Hlt Hq. destruct (decide _) as [_|Hn]; [|done].
    assert (Position.EntryPrice position ≠ 0) as He.
    { intros Hz. rewrite Hz in Hlt. by apply (Qclt_not_eq 0 0). }
    assert (float64_of_int64 (Position.Quantity position) ≠ 0) as Hf.
    { unfold float64_of_int64. rewrite <- Z2Qc_inj_0.
      intros Heq. by apply Z2Qc_inj in Heq. }
    field. done.
Qed.

(** ** Rebalancing *)

Lemma abs_gt_1 (diff : Qc) :
  1 < domain.abs diff ↔ 1 < diff ∨ diff < - 1.
Proof.
  unfold domain.abs. destruct (decide (diff < 0)) as [Hneg|Hpos].
  - split.
    + intros H. right. clear -H. qc_arith.
    + intros [H|H]; [exfalso; clear -H Hneg; qc_arith | clear -H; qc_arith].
  - apply Qcnot_lt_le in Hpos. split.
    + intros H. by left.
    + intros [H|H]; [done | exfalso; clear -H Hpos; qc_arith].
Qed.

Lemma getRebalanceAction_cases (diff : Qc) :
  (1 < diff ∧ domain.getRebalanceAction diff = "buy")
  ∨ (diff < - 1 ∧ domain.getRebalanceAction diff = "sell")
  ∨ (¬ 1 < domain.abs diff ∧ domain.getRebalanceAction diff = "hold").
Proof.
  unfold domain.getRebalanceAction.
  destruct (decide (1 < diff)) as [Hb|Hb]; [by left|].
  destruct (decide (diff < - 1)) as [Hs|Hs]; [right; by left|].
  do 2 right. split; [|done]. rewrite abs_gt_1. by intros [?|?].
Qed.

Lemma RebalanceRecommendations_step_Some (totalValue : Qc)
  (currentAllocations currentPrices : gmap string Qc) (entry : string * Qc)
  (r : domain.Recommendation) :
  domain.RebalanceRecommendations_step totalValue currentAllocations
    currentPrices entry = Some r ↔
  1 < domain.abs (entry.2 - default 0 (currentAllocations !! entry.1))
  ∧ ∃ currentPrice,
      currentPrices !! entry.1 = Some currentPrice
      ∧ r = domain.mkRecommendation entry.1
              (default 0 (currentAllocations !! entry.1)) entry.2
              (entry.2 - default 0 (currentAllocations !! entry.1))
              (entry.2 / lit_100 * totalValue)
              (default 0 (currentAllocations !! entry.1) / lit_100
               * totalValue)
              (domain.getRebalanceAction
                 (entry.2 - default 0 (currentAllocations !! entry.1)))
              (domain.int64_of_float64
                 ((entry.2 / lit_100 * totalValue
                   - default 0 (currentAllocations !! entry.1) / lit_100
                     * totalValue) / currentPrice)).
Proof.
  unfold domain.RebalanceRecommendations_step.
  destruct (decide (1 < domain.abs
                          (entry.2 - default 0 (currentAllocations !! entry.1))))
    as [Hgt|Hle].
  - destruct (currentPrices !! entry.1) as [cp|].
    + split.
      * intros [= <-]. split; [done|]. by exists cp.
      * intros (_ & cp' & [= <-] & ->). done.
    + split; [done|]. intros (_ & cp' & ? & _). done.
  - split; [done|]. intros (? & _). done.
Qed.

Lemma NoDup_omap_keys (f : string * Qc → option domain.Recommendation)
  (l : list (string * Qc)) :
  (∀ entry r, f entry = Some r → domain.symbol r = entry.1) →
  NoDup (l.*1) → NoDup (map domain.symbol (omap f l)).
Proof.
  intros Hkey. induction l as [|entry l IH]; simpl; [constructor|].
  intros Hnodup. apply NoDup_cons in Hnodup as [Hnotin Hnodup].
  destruct (f entry) as [r|] eqn:Hf; simpl; [|by apply IH].
  apply NoDup_cons. split; [|by apply IH].
  intros Hin. apply Hnotin.
  apply list_elem_of_fmap in Hin as (r' & Hsym & Hin').
  apply list_elem_of_omap in Hin' as (entry' & Hin' & Hf').
  apply list_elem_of_fmap. exists entry'. split; [|done].
  rewrite <- (Hkey _ _ Hf), Hsym. by apply Hkey.
Qed.

(** X13.  [RebalanceRecommendations] emits a recommendation for a target
    symbol exactly when the symbol has a price and the target percentage
    differs from the current allocation (0 for a symbol without an entry) by
    more than one point, and at most one per symbol.  The action is "buy"
    when the target is more than a point above the current percentage and
    "sell" when it is more than a point below; "hold" is never
    recommended. *)
Theorem RebalanceRecommendations_characterisation (portfolio : Portfolio.t)
  (targetAllocations currentPrices : gmap string Qc) :
  let recommendations :=
    domain.RebalanceRecommendations portfolio targetAllocations
      currentPrices in
  let current (symbol : string) : Qc :=
    default 0
      (domain.CalculatePortfolioAllocation portfolio currentPrices !! symbol) in
  (∀ r, r ∈ recommendations →
        targetAllocations !! domain.symbol r = Some (domain.target_percent r)
        ∧ is_Some (currentPrices !! domain.symbol r)
        ∧ domain.current_percent r = current (domain.symbol r)
        ∧ domain.difference r
          = domain.target_percent r - domain.current_percent r
        ∧ ((1 < domain.difference r ∧ domain.action r = "buy")
           ∨ (domain.difference r < - 1 ∧ domain.action r = "sell"))
        ∧ domain.action r ≠ "hold")
  ∧ (∀ symbol target,
       targetAllocations !! symbol = Some target →
       is_Some (currentPrices !! symbol) →
       1 < domain.abs (target - current symbol) →
       ∃ r, r ∈ recommendations
            ∧ domain.symbol r = symbol
            ∧ domain.target_percent r = target)
  ∧ NoDup (map domain.symbol recommendations).
Proof.
  intros recommendations current. subst recommendations current.
  unfold domain.RebalanceRecommendations. split; [|split].
  - intros r Hr.
    apply list_elem_of_omap in Hr as ([symbol target] & Hin & Hstep).
    apply elem_of_map_to_list in Hin.
    apply RebalanceRecommendations_step_Some in Hstep
      as (Hgt & cp & Hcp & ->). simpl in *.
    split; [done|]. split; [by eexists|]. split; [done|]. split; [done|].
    destruct (getRebalanceAction_cases
                (target
                 - default 0
                     (domain.CalculatePortfolioAllocation portfolio
                        currentPrices !! symbol)))
      as [[Hd Ha]|[[Hd Ha]|[Hd Ha]]]; rewrite Ha.
    + split; [by left | done].
    + split; [by right | done].
    + done.
  - intros symbol target Htarget [cp Hcp] Hgt.
    eexists. split.
    + apply list_elem_of_omap. exists (symbol, target).
      split; [by apply elem_of_map_to_list|].
      apply RebalanceRecommendations_step_Some. split; [done|].
      by exists cp.
    + done.
  - apply NoDup_omap_keys; [|apply NoDup_fst_map_to_list].
    intros entry r Hstep.
    apply RebalanceRecommendations_step_Some in Hstep as (_ & cp & _ & ->).
    done.
Qed.

(** * Further properties of the persistence gateway *)








(** * Further properties of the orchestration service *)

(** X18.  In both bodies of [ExecuteTrade], an order that
    [ValidateTradeOrder] rejects on the loaded portfolio ends the call with
    the validation error wrapped: no table is written, no position is
    returned and the caller's trade struct is not touched. *)
Theorem ExecuteTrade_rejected_order_writes_nothing (e : repository.env)
  (clock : nat → Time) (db : repository.DB) (portfolioID : Z)
  (trade : Trade.t) (currentPrice : Qc) (portfolio : Portfolio.t)
  (cause : domain.error) :
  repository.GetPortfolioByID e db portfolioID = Ok portfolio →
  domain.ValidateTradeOrder trade portfolio currentPrice = Some cause →
  request.run (service.ExecuteTrade e clock portfolioID currentPrice) db trade
  = request.mkOutcome db trade None
      (Some (request.TradeValidationFailed cause))
  ∧ request.run (service_tx.ExecuteTrade e clock portfolioID currentPrice)
      db trade
    = request.mkOutcome db trade None
        (Some (request.TradeValidationFailed cause)).
Proof.
  intros Hload Hvalid.
  unfold request.run, service.ExecuteTrade, service_tx.ExecuteTrade.
  unfold mbind, request.M_bind, request.query, request.get_trade. simpl.
  rewrite Hload. simpl. rewrite Hvalid. simpl. done.
Qed.

(** X19.  The transactional body of [ExecuteTrade] writes only through its
    transaction: whichever statement fails, a call that returns an error
    leaves the three tables exactly as they were before it. *)
Theorem ExecuteTrade_tx_failure_leaves_tables (e : repository.env)
  (clock : nat → Time) (db : repository.DB) (portfolioID : Z)
  (trade : Trade.t) (currentPrice : Qc) :
  request.err
    (request.run (service_tx.ExecuteTrade e clock portfolioID currentPrice)
       db trade) ≠ None →
  request.db'
    (request.run (service_tx.ExecuteTrade e clock portfolioID currentPrice)
       db trade) = db.
Proof.
  unfold request.run.
  destruct (service_tx.ExecuteTrade e clock portfolioID currentPrice
              (request.mkState db db trade)) as [s [p|err]] eqn:Hrun; simpl.
  - done.
  - intros _.
    by apply (service_tx_ExecuteTrade_all_or_nothing _ _ _ _ _ _ _ Hrun).
Qed.













(** * Further properties: searches and fees *)

(** X22.  [findPositionByIndex] and [findPosition] agree: the index is −1
    exactly when the pointer is nil; otherwise the index is that of the
    first position carrying the symbol, and that position is the one the
    pointer refers to.  The index is always −1 or within the slice. *)
Theorem findPositionByIndex_agrees_with_findPosition
  (positions : list Position.t) (symbol : string) :
  let index := domain.findPositionByIndex positions symbol in
  (index = (-1)%Z ↔ domain.findPosition positions symbol = None)
  ∧ (index = (-1)%Z ↔ Forall (λ p, Position.Symbol p ≠ symbol) positions)
  ∧ (-1 ≤ index < Z.of_nat (length positions))%Z
  ∧ (∀ p, domain.findPosition positions symbol = Some p →
          positions !! Z.to_nat index = Some p
          ∧ Position.Symbol p = symbol
          ∧ Forall (λ p', Position.Symbol p' ≠ symbol)
              (take (Z.to_nat index) positions)).
Proof.
  intros index. subst index.
  pose proof (findPositionByIndex_spec positions symbol) as H.
  pose proof (findPosition_None positions symbol) as Hnone.
  destruct (domain.findPosition positions symbol) as [p|] eqn:Hfind.
  - destruct H as (k & -> & Hk & Hsym & Hfirst).
    pose proof (lookup_lt_Some _ _ _ Hk) as Hlt.
    split; [split; [lia | done]|].
    split; [split; [lia | intros HF; by apply Hnone in HF]|].
    split; [lia|].
    intros p' [= <-]. rewrite Nat2Z.id. done.
  - rewrite H. split; [done|]. split; [split; [intros _; by apply Hnone | done]|].
    split; [lia|]. done.
Qed.

Ltac qc_arith_Z :=
  unfold Qcle, Qclt, lit_0_001, lit_100 in *; simpl in *;
  rewrite ?Qred_correct in *; unfold inject_Z in *; lra.

(** X23.  The commission is the flat 1.00 up to a trade value of 1000 and
    one thousandth of the trade value from there on; it never decreases when
    the trade value grows, and from a trade value of 1 on it does not exceed
    the trade value. *)
Theorem calculateCommission_schedule (v w : Qc) :
  (v ≤ Qc_of_Z 1000 → domain.calculateCommission v = 1)
  ∧ (Qc_of_Z 1000 ≤ v → domain.calculateCommission v = v * lit_0_001)
  ∧ (v ≤ w → domain.calculateCommission v ≤ domain.calculateCommission w)
  ∧ (1 ≤ v → domain.calculateCommission v ≤ v).
Proof.
  split; [|split; [|split]].
  - intros Hv. unfold domain.calculateCommission.
    destruct (decide (v * lit_0_001 < 1)) as [_|Hge]; [done|].
    apply Qcnot_lt_le in Hge. apply Qcle_antisym; [|done].
    clear -Hv. qc_arith_Z.
  - intros Hv. unfold domain.calculateCommission.
    destruct (decide (v * lit_0_001 < 1)) as [Hlt|_]; [|done].
    exfalso. clear -Hv Hlt. qc_arith_Z.
  - intros Hvw. unfold domain.calculateCommission.
    destruct (decide (v * lit_0_001 < 1)) as [Hv|Hv];
      destruct (decide (w * lit_0_001 < 1)) as [Hw|Hw].
    + apply Qcle_refl.
    + by apply Qcnot_lt_le.
    + exfalso. apply Qcnot_lt_le in Hv. clear -Hvw Hv Hw. qc_arith.
    + clear -Hvw. qc_arith.
  - apply calculateCommission_le_value.
Qed.

(** * Instances on concrete ledgers *)

Lemma ExecuteTradeOrder_other_side_sells_witness :
  Trade.Side (order "short" "AAPL" 5) ≠ "buy"
  ∧ domain.portfolio'
      (domain.ExecuteTradeOrder tick (order "short" "AAPL" 5) scenario_B
         (Qc_of_Z 160))
    = domain.portfolio'
        (domain.ExecuteTradeOrder tick
           (Trade.with_Side "sell" (order "short" "AAPL" 5)) scenario_B
           (Qc_of_Z 160)).
Proof.
  assert (Trade.Side (order "short" "AAPL" 5) ≠ "buy") as Hside by done.
  split; [exact Hside|].
  exact (proj1 (ExecuteTradeOrder_other_side_sells tick
                  (order "short" "AAPL" 5) scenario_B (Qc_of_Z 160) Hside)).
Defined.

Lemma scenario_B_symbols_distinct :
  NoDup (map Position.Symbol (Portfolio.Positions scenario_B)).
Proof. apply (bool_decide_unpack _). by vm_compute. Defined.

Lemma ExecuteTradeOrder_keeps_symbols_distinct_witness :
  NoDup (map Position.Symbol (Portfolio.Positions scenario_B))
  ∧ NoDup
      (map Position.Symbol
         (Portfolio.Positions
            (domain.portfolio'
               (domain.ExecuteTradeOrder tick (order "buy" "MSFT" 3)
                  scenario_B (Qc_of_Z 300))))).
Proof.
  split; [exact scenario_B_symbols_distinct|].
  exact (ExecuteTradeOrder_keeps_symbols_distinct tick (order "buy" "MSFT" 3)
           scenario_B (Qc_of_Z 300) scenario_B_symbols_distinct).
Defined.

Lemma scenario_B_int64 : quantities_int64 scenario_B.
Proof.
  unfold quantities_int64. simpl. constructor; [|constructor].
  unfold in_int64, int64_min, int64_max. simpl. lia.
Defined.

Lemma scenario_B_positive :
  Forall (λ p, (0 < Position.Quantity p)%Z) (Portfolio.Positions scenario_B).
Proof. simpl. constructor; [simpl; lia | constructor]. Defined.

Lemma scenario_B_buy_valid :
  domain.ValidateTradeOrder (order "buy" "AAPL" 10) scenario_B (Qc_of_Z 160)
  = None.
Proof. by vm_compute. Defined.

Lemma scenario_B_buy_fits (old : Position.t) :
  Trade.Side (order "buy" "AAPL" 10) = "buy" →
  domain.findPosition (Portfolio.Positions scenario_B)
    (Trade.Symbol (order "buy" "AAPL" 10)) = Some old →
  in_int64 (Position.Quantity old + Trade.Quantity (order "buy" "AAPL" 10)).
Proof.
  intros _ Hfind. vm_compute in Hfind. injection Hfind as <-.
  unfold in_int64, int64_min, int64_max. simpl. lia.
Defined.

Lemma validated_order_keeps_quantities_positive_witness :
  quantities_int64 scenario_B
  ∧ Forall (λ p, (0 < Position.Quantity p)%Z) (Portfolio.Positions scenario_B)
  ∧ domain.ValidateTradeOrder (order "buy" "AAPL" 10) scenario_B
      (Qc_of_Z 160) = None
  ∧ Forall (λ p, (0 < Position.Quantity p)%Z)
      (Portfolio.Positions
         (domain.portfolio'
            (domain.ExecuteTradeOrder tick (order "buy" "AAPL" 10) scenario_B
               (Qc_of_Z 160)))).
Proof.
  split; [exact scenario_B_int64|]. split; [exact scenario_B_positive|].
  split; [exact scenario_B_buy_valid|].
  exact (validated_order_keeps_quantities_positive tick
           (order "buy" "AAPL" 10) scenario_B (Qc_of_Z 160) scenario_B_int64
           scenario_B_positive scenario_B_buy_valid scenario_B_buy_fits).
Defined.

Lemma validated_order_costs_the_fee_witness :
  quantities_int64 scenario_B
  ∧ domain.ValidateTradeOrder (order "buy" "AAPL" 10) scenario_B
      (Qc_of_Z 160) = None
  ∧ AAPL_at_160 !! Trade.Symbol (order "buy" "AAPL" 10) = Some (Qc_of_Z 160)
  ∧ domain.CalculatePortfolioValue
      (domain.portfolio'
         (domain.ExecuteTradeOrder tick (order "buy" "AAPL" 10) scenario_B
            (Qc_of_Z 160)))
      AAPL_at_160
    = domain.CalculatePortfolioValue scenario_B AAPL_at_160
      - domain.calculateCommission
          (float64_of_int64 (Trade.Quantity (order "buy" "AAPL" 10))
           * Qc_of_Z 160).
Proof.
  assert (AAPL_at_160 !! Trade.Symbol (order "buy" "AAPL" 10)
          = Some (Qc_of_Z 160)) as Hprice by reflexivity.
  split; [exact scenario_B_int64|]. split; [exact scenario_B_buy_valid|].
  split; [exact Hprice|].
  exact (validated_order_costs_the_fee tick (order "buy" "AAPL" 10)
           scenario_B (Qc_of_Z 160) AAPL_at_160 scenario_B_int64
           scenario_B_buy_valid Hprice scenario_B_buy_fits).
Defined.

Lemma buy_then_sell_restores_positions_witness :
  Trade.Side (order "buy" "AAPL" 10) = "buy"
  ∧ Forall (λ p, Position.Symbol p ≠ Trade.Symbol (order "buy" "AAPL" 10))
      (Portfolio.Positions scenario_A)
  ∧ Portfolio.Positions
      (domain.portfolio'
         (domain.ExecuteTradeOrder tick
            (Trade.with_Side "sell" (order "buy" "AAPL" 10))
            (domain.portfolio'
               (domain.ExecuteTradeOrder tick (order "buy" "AAPL" 10)
                  scenario_A (Qc_of_Z 150)))
            (Qc_of_Z 155)))
    = Portfolio.Positions scenario_A.
Proof.
  split; [reflexivity|]. split; [constructor|].
  exact (proj1 (proj2 (proj2 (proj2
           (buy_then_sell_restores_positions tick tick
              (order "buy" "AAPL" 10) scenario_A (Qc_of_Z 150) (Qc_of_Z 155)
              eq_refl (Forall_nil_2 _)))))).
Defined.

Lemma test_portfolio_priced :
  Forall (λ p, is_Some (test_prices !! Position.Symbol p))
    (Portfolio.Positions test_portfolio).
Proof. repeat constructor; by eexists. Defined.

Lemma positions_value_is_cost_plus_unrealized_pnl_witness :
  Forall (λ p, is_Some (test_prices !! Position.Symbol p))
    (Portfolio.Positions test_portfolio)
  ∧ domain.CalculatePortfolioValue test_portfolio test_prices
    - Portfolio.Cash test_portfolio
    = cost_basis (Portfolio.Positions test_portfolio)
      + domain.CalculateUnrealizedPnL (Portfolio.Positions test_portfolio)
          test_prices.
Proof.
  split; [exact test_portfolio_priced|].
  exact (positions_value_is_cost_plus_unrealized_pnl test_portfolio
           test_prices test_portfolio_priced).
Defined.





Lemma scenario_A_loads :
  repository.GetPortfolioByID no_faults scenario_A_db 1 = Ok scenario_A.
Proof. reflexivity. Defined.

Lemma ExecuteTrade_rejected_order_writes_nothing_witness :
  repository.GetPortfolioByID no_faults scenario_A_db 1 = Ok scenario_A
  ∧ domain.ValidateTradeOrder (order "buy" "AAPL" 0) scenario_A (Qc_of_Z 150)
    = Some domain.ErrQuantityNotPositive
  ∧ request.run (service_tx.ExecuteTrade no_faults tick 1 (Qc_of_Z 150))
      scenario_A_db (order "buy" "AAPL" 0)
    = request.mkOutcome scenario_A_db (order "buy" "AAPL" 0) None
        (Some (request.TradeValidationFailed domain.ErrQuantityNotPositive)).
Proof.
  split; [exact scenario_A_loads|]. split; [reflexivity|].
  exact (proj2 (ExecuteTrade_rejected_order_writes_nothing no_faults tick
                  scenario_A_db 1 (order "buy" "AAPL" 0) (Qc_of_Z 150)
                  scenario_A domain.ErrQuantityNotPositive scenario_A_loads
                  eq_refl)).
Defined.

Lemma position_insert_fails_in_tx :
  request.err
    (request.run
       (service_tx.ExecuteTrade position_insert_fails tick 1 (Qc_of_Z 150))
       scenario_A_db (order "buy" "AAPL" 10)) ≠ None.
Proof. by vm_compute. Defined.

Lemma ExecuteTrade_tx_failure_leaves_tables_witness :
  request.err
    (request.run
       (service_tx.ExecuteTrade position_insert_fails tick 1 (Qc_of_Z 150))
       scenario_A_db (order "buy" "AAPL" 10)) ≠ None
  ∧ request.db'
      (request.run
         (service_tx.ExecuteTrade position_insert_fails tick 1 (Qc_of_Z 150))
         scenario_A_db (order "buy" "AAPL" 10))
    = scenario_A_db.
Proof.
  split; [exact position_insert_fails_in_tx|].
  exact (ExecuteTrade_tx_failure_leaves_tables position_insert_fails tick
           scenario_A_db 1 (order "buy" "AAPL" 10) (Qc_of_Z 150)
           position_insert_fails_in_tx).
Defined.


